(** * dockercompose: the output classifier and the dependency resolver

    A shallow embedding of [dockercompose.py], an Ansible module that drives
    the docker-compose command line.  The module targets Python 2: its
    strings are byte strings, modelled as [string]; a Python [dict] keyed by
    names is a [gmap]; a Python [set] is a [gset]; an uncaught Python
    exception is the [Raise] result of the error monad [res]. *)

From Stdlib Require Import ZArith Bool Ascii.
From stdpp Require Import gmap strings list fin_maps.

Local Open Scope Z_scope.
Local Open Scope nat_scope.

(** * Exceptions *)

Inductive exn : Type :=
| AttributeError
| TypeError
| IndexError
| OSError.

Inductive res (A : Type) : Type :=
| Ok (a : A)
| Raise (e : exn).

Arguments Ok {A} a.
Arguments Raise {A} e.

#[global] Instance res_ret : MRet res := fun A a => Ok a.
#[global] Instance res_bind : MBind res := fun A B f m =>
  match m with
  | Ok a => f a
  | Raise e => Raise e
  end.

Definition returns {A : Type} (m : res A) : Prop := ∃ a, m = Ok a.

(** * Python string methods *)

Module Py.

(** [s.startswith(p)] *)
Fixpoint startswith (s p : string) {struct p} : bool :=
  match p, s with
  | EmptyString, _ => true
  | String _ _, EmptyString => false
  | String c p', String d s' => bool_decide (c = d) && startswith s' p'
  end.

(** [s.endswith(p)]: [s] is [p], or the tail of [s] ends with [p]. *)
Fixpoint endswith (s p : string) : bool :=
  bool_decide (s = p) ||
  match s with
  | EmptyString => false
  | String _ s' => endswith s' p
  end.

(** [sub in s] *)
Fixpoint contains (sub s : string) : bool :=
  startswith s sub ||
  match s with
  | EmptyString => false
  | String _ s' => contains sub s'
  end.

(** The whitespace of a Python 2 byte string: tab, newline, vertical tab,
    form feed, carriage return and space. *)
Definition isspace : ascii → bool := Ascii.is_space.

Fixpoint lstrip (s : string) : string :=
  match s with
  | String c s' => if isspace c then lstrip s' else s
  | EmptyString => EmptyString
  end.

Fixpoint rstrip (s : string) : string :=
  match s with
  | EmptyString => EmptyString
  | String c s' =>
      match rstrip s' with
      | EmptyString => if isspace c then EmptyString else String c EmptyString
      | r => String c r
      end
  end.

(** [s.strip()] *)
Definition strip (s : string) : string := rstrip (lstrip s).

(** [s.split()]: the maximal runs of non-whitespace characters. *)
Definition split (s : string) : list string := String.words s.

(** [sep.join(l)] *)
Fixpoint join (sep : string) (l : list string) : string :=
  match l with
  | [] => ""
  | [x] => x
  | x :: l' => x +:+ sep +:+ join sep l'
  end.

(** [l[i]], raising [IndexError] out of range. *)
Definition getitem {A : Type} (l : list A) (i : nat) : res A :=
  match l !! i with
  | Some x => Ok x
  | None => Raise IndexError
  end.

(** [for x in l: if p(x): flag = True], from the value [flag] had. *)
Definition any_sets (A : Type) (p : A → bool) (l : list A) (flag : bool) : bool :=
  fold_left (fun flag x => if p x then true else flag) l flag.

End Py.

Arguments Py.any_sets {A} p l flag.

(** * service_state_allign *)

(** [[f(x) for x in l]] where [f] may raise. *)
Definition comprehension {A B : Type} (f : A → res B) (l : list A) : res (list B) :=
  mapM f l.

(** The completed lines of the action: those that start with [prefix] and,
    once stripped, do not end with "...". *)
Definition pausing_lines (lines : list string) (prefix : string) : list string :=
  List.filter (fun ln => Py.startswith ln prefix
                         && negb (Py.endswith (Py.strip ln) "...")) lines.

Definition error_lines (lines : list string) : list string :=
  List.filter (fun ln => Py.startswith ln "ERROR") lines.

(** [[paused_service.split()[1] for paused_service in pausing_lines
      if paused_service.endswith(suffix)]] *)
Definition services_ending (suffix : string) (pausing_lines : list string)
  : res (list string) :=
  comprehension (fun paused_service => Py.getitem (Py.split paused_service) 1)
    (List.filter (fun paused_service => Py.endswith paused_service suffix)
       pausing_lines).

(** The inner loop over [error_lines] for one [error_service]. *)
Definition record_errors (error_lines : list string)
    (service_state : gmap string string) (error_service : string)
  : gmap string string :=
  fold_left (fun st error_line =>
    if Py.contains error_service error_line
    then <[error_service := error_line]> st
    else st) error_lines service_state.

Definition service_state_allign (lines : list string) (prefix : string)
  : res (gmap string string) :=
  let pausing_lines := pausing_lines lines prefix in
  let error_lines := error_lines lines in
  error_services ← services_ending "error" pausing_lines;
  done_services ← services_ending "done" pausing_lines;
  let service_state : gmap string string := ∅ in
  let service_state :=
    fold_left (record_errors error_lines) error_services service_state in
  let service_state :=
    fold_left (fun st done_service => <[done_service := "done"]> st)
      done_services service_state in
  Ok service_state.

(** * eval_change *)

(** The loop [for service in service_state: if not
    service_state[service].endswith(suffix): changeVal = True].  The order in
    which a Python 2 dict is walked is not specified; the loop only ever sets
    the flag, so any order gives the same flag. *)
Definition state_loop (suffix : string) (service_state : gmap string string)
    (changeVal : bool) : bool :=
  Py.any_sets (fun kv => negb (Py.endswith kv.2 suffix))
    (map_to_list service_state) changeVal.

Definition eval_change (action : string) (stderr_lines stdout_lines : list string)
  : res (bool * bool) :=
  let changeVal := false in
  let failVal := false in
  let changeVal :=
    if bool_decide (action = "up") then
      let valid_lines :=
        List.filter (fun ln => Py.startswith ln "Starting"
                               || Py.startswith ln "Creating") stderr_lines in
      Py.any_sets (fun valid_line => negb (Py.endswith valid_line "up-to-date"))
        valid_lines changeVal
    else changeVal in
  let changeVal :=
    if bool_decide (action = "pull") then
      Py.any_sets (fun stdout_line =>
        Py.contains "Status: Downloaded newer image" stdout_line)
        stdout_lines changeVal
    else changeVal in
  let failVal :=
    if bool_decide (action = "build") then
      Py.any_sets (fun stderr_line => Py.contains "failed to build" stderr_line)
        stderr_lines failVal
    else failVal in
  let changeVal :=
    if bool_decide (action = "stop") && bool_decide (0 < length stderr_lines)
    then true else changeVal in
  let changeVal :=
    if bool_decide (action = "create") && bool_decide (0 < length stderr_lines)
    then true else changeVal in
  let changeVal :=
    if bool_decide (action = "start") then false else changeVal in
  changeVal ←
    (if bool_decide (action = "pause") then
       service_state ← service_state_allign stderr_lines "Pausing";
       Ok (state_loop "is already paused" service_state changeVal)
     else Ok changeVal);
  changeVal ←
    (if bool_decide (action = "unpause") then
       service_state ← service_state_allign stderr_lines "Unpausing";
       Ok (state_loop "is not paused" service_state changeVal)
     else Ok changeVal);
  Ok (changeVal, failVal).

(** * Values loaded from the compose file *)

(** The hashable scalars [yaml.load] produces: strings, integers and
    [None]. *)
Inductive atom : Type :=
| AStr (s : string)
| AInt (n : Z)
| ANone.

#[global] Instance atom_eq_dec : EqDecision atom.
Proof. solve_decision. Defined.

#[global] Instance AStr_inj : Inj (=) (=) AStr.
Proof. by intros s1 s2 [= ->]. Qed.

#[global] Instance atom_countable : Countable atom.
Proof.
  refine (inj_countable'
    (fun a => match a with
              | AStr s => inl s
              | AInt n => inr (inl n)
              | ANone => inr (inr ())
              end)
    (fun x => match x with
              | inl s => AStr s
              | inr (inl n) => AInt n
              | inr (inr _) => ANone
              end) _).
  by intros [].
Defined.

(** A loaded YAML node: a scalar, a sequence (Python [list]) or a mapping
    (Python [dict]). *)
#[warnings="-register-all"]
Inductive pyval : Type :=
| PyAtom (a : atom)
| PyList (l : list pyval)
| PyDict (d : gmap atom pyval).

Module PyVal.

(** [v.get(key, fallback)]: only a [dict] has the method. *)
Definition get (v : pyval) (key : atom) (fallback : pyval) : res pyval :=
  match v with
  | PyDict d => Ok (default fallback (d !! key))
  | PyAtom _ | PyList _ => Raise AttributeError
  end.

(** The right operand of [some_list + v] must be a list. *)
Definition as_list (v : pyval) : res (list pyval) :=
  match v with
  | PyList l => Ok l
  | PyAtom _ | PyDict _ => Raise TypeError
  end.

(** Only scalars can be members of a [set]. *)
Definition hashable (v : pyval) : res atom :=
  match v with
  | PyAtom a => Ok a
  | PyList _ | PyDict _ => Raise TypeError
  end.

(** [set(l)] *)
Definition set (l : list pyval) : res (gset atom) :=
  atoms ← mapM hashable l; Ok (list_to_set atoms).

(** [' '.join] accepts strings only. *)
Definition as_str (a : atom) : res string :=
  match a with
  | AStr s => Ok s
  | AInt _ | ANone => Raise TypeError
  end.

End PyVal.

(** * The dependency resolver (lines 132-138 of [main]) *)

(** [for x in l: acc = body(acc, x)] where the body may raise. *)
Fixpoint for_each {A S : Type} (body : S → A → res S) (l : list A) (acc : S) : res S :=
  match l with
  | [] => Ok acc
  | x :: l' => acc' ← body acc x; for_each body l' acc'
  end.

(** One turn of the loop.  [depedency_services] is always fed to [set(...)]
    before it is used, so the order [list(set(...))] leaves it in does not
    matter and it is kept as the set of its members. *)
Definition resolve_service (all_services : pyval) (depedency_services : gset atom)
    (service : string) : res (gset atom) :=
  current_service ← PyVal.get all_services (AStr service) (PyDict ∅);
  depends_on ← PyVal.get current_service (AStr "depends_on") (PyList []);
  depends_on ← PyVal.as_list depends_on;
  added ← PyVal.set depends_on;
  Ok (depedency_services ∪ added).

Definition resolve_dependencies (info : pyval) (services : list string)
    (ignoredependencys : bool) : res (gset atom) :=
  let depedency_services : gset atom := ∅ in
  if negb ignoredependencys then
    all_services ← PyVal.get info (AStr "services") (PyList []);
    for_each (resolve_service all_services) services depedency_services
  else Ok depedency_services.

(** [set(depedency_services + p['services'])] *)
Definition effective_services (depedency_services : gset atom)
    (services : list string) : gset atom :=
  depedency_services ∪ list_to_set (AStr <$> services).

(** The expansion as a whole: the requested services and their declared
    dependencies. *)
Definition expand (info : pyval) (services : list string) : res (gset atom) :=
  depedency_services ← resolve_dependencies info services false;
  Ok (effective_services depedency_services services).

(** What one turn of the loop adds for [service]: the members of its
    [depends_on]. *)
Definition declared_dependencies (info : pyval) (service : string) : res (gset atom) :=
  all_services ← PyVal.get info (AStr "services") (PyList []);
  resolve_service all_services ∅ service.

(** * main *)

(** The choices [AnsibleModule] accepts for [command]. *)
Inductive action : Type :=
| up | down | start | stop | pause | unpause | pull | create | build.

#[global] Instance action_eq_dec : EqDecision action.
Proof. solve_decision. Defined.

Definition action_name (a : action) : string :=
  match a with
  | up => "up" | down => "down" | start => "start" | stop => "stop"
  | pause => "pause" | unpause => "unpause" | pull => "pull"
  | create => "create" | build => "build"
  end.

(** [module.params] *)
Record params : Type := {
  location : string;
  services : list string;
  command : action;
  ignoredependencys : bool;
  removevolumes : bool;
}.

(** What [main] asks of the machine it runs on. *)
Record world : Type := {
  (** [module.get_bin_path("docker-compose")] *)
  get_bin_path : option string;
  (** [os.path.exists] and [os.path.isfile] *)
  path_exists : string → bool;
  path_isfile : string → bool;
  (** [yaml.load(open(path).read())]; [None] when any of it raises *)
  load_yaml : string → option pyval;
  (** whether [os.chdir(os.path.dirname(path))] succeeds *)
  chdir_dirname : string → bool;
  (** the order in which [list(s)] walks a set: its members, each once *)
  set_order : gset atom → list atom;
  set_order_elements : ∀ s, set_order s ≡ₚ elements s;
  (** [module.run_command]: exit code, stdout, stderr *)
  run_command : string → Z * string * string;
}.

(** How a run ends. *)
Inductive outcome : Type :=
| fail_json (msg : string) (output : option (string * string))
| exit_json (rc : Z) (changed : bool) (msg : nat * bool * bool) (stdout stderr : string)
| uncaught (e : exn).

(** A piece of [main]: it extends the list of command lines handed to
    [run_command] so far, and either goes on with a value or ends the run. *)
Definition prog (A : Type) : Type := list string → list string * (outcome + A).

Definition pure {A : Type} (a : A) : prog A := fun trace => (trace, inr a).

Definition finish {A : Type} (o : outcome) : prog A := fun trace => (trace, inl o).

#[global] Instance prog_bind : MBind prog := fun A B k m trace =>
  match m trace with
  | (trace', inr a) => k a trace'
  | (trace', inl o) => (trace', inl o)
  end.

Definition lift {A : Type} (m : res A) : prog A :=
  match m with
  | Ok a => pure a
  | Raise e => finish (uncaught e)
  end.

Definition invoke (w : world) (command_str : string) : prog (Z * string * string) :=
  fun trace => (trace ++ [command_str], inr (run_command w command_str)).

(** [s.splitlines()] of a Python 2 byte string: lines end at a line feed, a
    carriage return, or a carriage return followed by a line feed. *)
Fixpoint splitlines (s : string) : list string :=
  match s with
  | EmptyString => []
  | String c s' =>
      if bool_decide (c = "010"%char) then "" :: splitlines s'
      else if bool_decide (c = "013"%char) then
        match s' with
        | String c' s'' =>
            if bool_decide (c' = "010"%char) then "" :: splitlines s''
            else "" :: splitlines s'
        | EmptyString => "" :: splitlines s'
        end
      else
        match splitlines s' with
        | [] => [String c ""]
        | ln :: lns => String c ln :: lns
        end
  end.

(** [' '.join(list(set(depedency_services + p['services'])))] *)
Definition join_services (w : world) (depedency_services : gset atom)
    (services : list string) : res string :=
  names ← mapM PyVal.as_str (set_order w (effective_services depedency_services services));
  Ok (Py.join " " names).

Definition alternative_cmd : string := "/usr/local/bin/docker-compose".

(** Lines 104-112: the binary [get_bin_path] found or, failing that (or on
    an empty path), the one under /usr/local/bin if it exists. *)
Definition find_compose_cmd (w : world) : option string :=
  match get_bin_path w with
  | Some (String c rest) => Some (String c rest)
  | Some EmptyString | None =>
      if path_exists w alternative_cmd then Some alternative_cmd else None
  end.

(** Lines 144-147: the word after the binary on the command line. *)
Definition verb (a : action) : string :=
  if bool_decide (a = up) then "up -d" else action_name a.

(** Lines 170-182: classify the output of the command and end the run. *)
Definition report (command : action) (rc : Z) (stdout stderr : string)
  : prog Empty_set :=
  let stderr_lines := splitlines stderr in
  let stdout_lines := splitlines stdout in
  '(changed, failed) ←
    lift (eval_change (action_name command) stderr_lines stdout_lines);
  let ms := (length stderr_lines, changed, failed) in
  if (failed : bool) then finish (fail_json "Build Failed." (Some (stdout, stderr)))
  else finish (exit_json rc changed ms stdout stderr).

Definition main_body (w : world) (p : params) : prog Empty_set :=
  COMPOSE_CMD ←
    match find_compose_cmd w with
    | Some cmd => pure cmd
    | None => finish (fail_json "docker-compose binary not found" None)
    end;
  _ ←
    (if negb (path_exists w (location p)) || negb (path_isfile w (location p))
     then finish (fail_json
       "Location does not exists. Enter full path and compose filename." None)
     else pure ());
  _ ←
    (if bool_decide (command p = down) && bool_decide (1 ≤ length (services p))
     then finish (fail_json
       "You cannot specify the command as down and a number of services" None)
     else pure ());
  info ←
    match load_yaml w (location p) with
    | Some info => pure info
    | None => finish (fail_json "YAML cannot be decoded." None)
    end;
  _ ←
    (if chdir_dirname w (location p) then pure () else finish (uncaught OSError));
  depedency_services ←
    lift (resolve_dependencies info (services p) (ignoredependencys p));
  let command_list := [COMPOSE_CMD] in
  let command_list := command_list ++ [verb (command p)] in
  _ ←
    (if bool_decide (command p = stop) || bool_decide (command p = down) then
       let unpause_first_command_list := [COMPOSE_CMD; "unpause"] in
       joined ← lift (join_services w depedency_services (services p));
       let unpause_first_command_list := unpause_first_command_list ++ [joined] in
       let unpause_first_command_str := Py.join " " unpause_first_command_list in
       _ ← invoke w unpause_first_command_str;
       pure ()
     else pure ());
  command_list ←
    (if negb (bool_decide (command p = down)) then
       joined ← lift (join_services w depedency_services (services p));
       pure (command_list ++ [joined])
     else
       if removevolumes p then pure (command_list ++ ["-v"])
       else pure command_list);
  let command_str := Py.join " " command_list in
  '(rc, stdout, stderr) ← invoke w command_str;
  report (command p) rc stdout stderr.

(** A run of the module: the command lines it handed to [run_command], in
    order, and how it ended. *)
Definition main (w : world) (p : params) : list string * outcome :=
  match main_body w p [] with
  | (trace, inl o) => (trace, o)
  | (trace, inr impossible) => (trace, Empty_set_rect (fun _ => outcome) impossible)
  end.

(** * Fixtures *)

(** A compose document in which [a] depends on [b] and [b] on [c]. *)
Definition doc_chain : pyval :=
  PyDict {[ AStr "services" :=
    PyDict {[ AStr "a" := PyDict {[ AStr "depends_on" := PyList [PyAtom (AStr "b")] ]};
              AStr "b" := PyDict {[ AStr "depends_on" := PyList [PyAtom (AStr "c")] ]};
              AStr "c" := PyDict ∅ ]} ]}.

(** A compose document in which [web] depends on [db] and [db] on nothing. *)
Definition doc_flat : pyval :=
  PyDict {[ AStr "services" :=
    PyDict {[ AStr "web" := PyDict {[ AStr "depends_on" := PyList [PyAtom (AStr "db")] ]};
              AStr "db" := PyDict {[ AStr "image" := PyAtom (AStr "postgres") ]} ]} ]}.

(** A compose document without a [services] key. *)
Definition doc_v1 : gmap atom pyval :=
  {[ AStr "web" := PyDict {[ AStr "image" := PyAtom (AStr "nginx") ]} ]}.

(** What [docker-compose pause] prints when [web] was paused already and
    [db] was not. *)
Definition pause_mixed_lines : list string :=
  ["Pausing web ... error"; "Pausing db ... done";
   "ERROR: for web  Container 1f is already paused"].

(** The same service reported once as failed and once as done, with two
    [ERROR] lines that do not name it. *)
Definition pause_twice_lines : list string :=
  ["Pausing web ... error"; "Pausing web ... done";
   "ERROR: for db  No such container"; "ERROR: for cache  No such container"].

(** Two [ERROR] lines for one failed service. *)
Definition pause_two_errors_lines : list string :=
  ["Pausing web ... error"; "ERROR: for web  first"; "ERROR: for web  second"].

(** A machine on which everything is in place and every command prints
    one line on stderr. *)
Definition world_ok : world :=
  {| get_bin_path := Some "/usr/bin/docker-compose";
     path_exists := fun _ => true;
     path_isfile := fun _ => true;
     load_yaml := fun _ => Some doc_chain;
     chdir_dirname := fun _ => true;
     set_order := elements;
     set_order_elements := fun _ => reflexivity _;
     run_command := fun _ => (0%Z, "", "Stopping a ... done") |}.

(** A machine on which everything is in place, the compose file loads as
    [info] and every command ends with [result]. *)
Definition world_with (info : pyval) (result : Z * string * string) : world :=
  {| get_bin_path := Some "/usr/bin/docker-compose";
     path_exists := fun _ => true;
     path_isfile := fun _ => true;
     load_yaml := fun _ => Some info;
     chdir_dirname := fun _ => true;
     set_order := elements;
     set_order_elements := fun _ => reflexivity _;
     run_command := fun _ => result |}.

(** A machine without the binary and without the compose file. *)
Definition world_bare : world :=
  {| get_bin_path := None;
     path_exists := fun _ => false;
     path_isfile := fun _ => false;
     load_yaml := fun _ => None;
     chdir_dirname := fun _ => false;
     set_order := elements;
     set_order_elements := fun _ => reflexivity _;
     run_command := fun _ => (127%Z, "", "") |}.

(** The parameters of a run on [/srv/app/docker-compose.yml] with the
    defaults of the two flags. *)
Definition params_of (command : action) (services : list string) : params :=
  {| location := "/srv/app/docker-compose.yml"; services := services;
     command := command; ignoredependencys := false; removevolumes := true |}.

(** A compose document in which [web] depends on the number 1. *)
Definition doc_numeric : pyval :=
  PyDict {[ AStr "services" :=
    PyDict {[ AStr "web" :=
      PyDict {[ AStr "depends_on" := PyList [PyAtom (AInt 1)] ]} ]} ]}.

(** * Facts about the string methods *)

Section StringFacts.

Lemma app_empty (s : string) : "" +:+ s = s.
Proof. reflexivity. Qed.

Lemma app_String (c : ascii) (a b : string) : String c a +:+ b = String c (a +:+ b).
Proof. reflexivity. Qed.

Lemma app_assoc_str (a b c : string) : (a +:+ b) +:+ c = a +:+ b +:+ c.
Proof.
  induction a as [|x a IH]; [done |].
  by rewrite !app_String, IH.
Qed.

Lemma startswith_spec (s p : string) :
  Py.startswith s p = true ↔ ∃ rest, s = p +:+ rest.
Proof.
  revert s. induction p as [|c p IH]; intros s; simpl.
  - split; [intros _; by exists s | done].
  - destruct s as [|d s].
    + split; [done | intros [rest Heq]; by rewrite app_String in Heq].
    + rewrite andb_true_iff, bool_decide_eq_true, IH. split.
      * intros [-> [rest ->]]. by exists rest.
      * intros [rest Heq]. rewrite app_String in Heq.
        injection Heq as -> ->. eauto.
Qed.

Lemma endswith_spec (s p : string) :
  Py.endswith s p = true ↔ ∃ front, s = front +:+ p.
Proof.
  induction s as [|c s IH]; simpl.
  - rewrite orb_false_r, bool_decide_eq_true. split.
    + intros <-. by exists "".
    + intros [[|d front] Heq]; [by rewrite app_empty in Heq |].
      by rewrite app_String in Heq.
  - rewrite orb_true_iff, bool_decide_eq_true, IH. split.
    + intros [<- | [front ->]]; [by exists "" | by exists (String c front)].
    + intros [[|d front] Heq]; [left; by rewrite app_empty in Heq |].
      rewrite app_String in Heq. injection Heq as -> ->. right. by exists front.
Qed.

Lemma contains_spec (sub s : string) :
  Py.contains sub s = true ↔ ∃ front rest, s = front +:+ sub +:+ rest.
Proof.
  induction s as [|c s IH]; simpl.
  - rewrite orb_false_r, startswith_spec. split.
    + intros [rest ->]. by exists "", rest.
    + intros [[|d front] [rest Heq]]; [by exists rest |].
      by rewrite app_String in Heq.
  - rewrite orb_true_iff, startswith_spec, IH. split.
    + intros [[rest ->] | (front & rest & ->)];
        [by exists "", rest | by exists (String c front), rest].
    + intros [[|d front] [rest Heq]]; [left; by exists rest |].
      rewrite app_String in Heq. injection Heq as -> ->.
      right. by exists front, rest.
Qed.

(** A string that contains [sub +:+ more] contains [sub]. *)
Lemma contains_shorter (sub more s : string) :
  Py.contains (sub +:+ more) s = true → Py.contains sub s = true.
Proof.
  rewrite !contains_spec. intros (front & rest & ->).
  exists front, (more +:+ rest). by rewrite app_assoc_str.
Qed.

Lemma any_sets_existsb {A : Type} (p : A → bool) (l : list A) (flag : bool) :
  Py.any_sets p l flag = flag || existsb p l.
Proof.
  unfold Py.any_sets. revert flag.
  induction l as [|x l IH]; intros flag; simpl.
  - by rewrite orb_false_r.
  - rewrite IH. by destruct (p x), flag.
Qed.

Lemma any_sets_true_iff {A : Type} (p : A → bool) (l : list A) :
  Py.any_sets p l false = true ↔ ∃ x, x ∈ l ∧ p x = true.
Proof.
  rewrite any_sets_existsb, orb_false_l, existsb_exists.
  by setoid_rewrite list_elem_of_In.
Qed.

End StringFacts.

(** * The output classifier *)

(** Settle the comparisons of a literal action name. *)
Ltac decide_actions :=
  repeat match goal with
  | |- context [bool_decide (?a = ?b)] =>
      first [ rewrite (bool_decide_eq_true_2 (a = b)) by reflexivity
            | rewrite (bool_decide_eq_false_2 (a = b)) by discriminate ]
  end.

Section Classifier.

Implicit Types (action : string) (stderr_lines stdout_lines : list string).

Lemma bind_Ok {A B : Type} (a : A) (k : A → res B) : (Ok a ≫= k) = k a.
Proof. reflexivity. Qed.

Lemma bind_Raise {A B : Type} (e : exn) (k : A → res B) : (Raise e ≫= k) = Raise e.
Proof. reflexivity. Qed.

Lemma comprehension_cons {A B : Type} (f : A → res B) (x : A) (l : list A) :
  comprehension f (x :: l) =
  y ← f x; k ← comprehension f l; Ok (y :: k).
Proof. reflexivity. Qed.

Lemma comprehension_Ok {A B : Type} (f : A → res B) (l : list A) (k : list B) :
  comprehension f l = Ok k ↔ Forall2 (fun x y => f x = Ok y) l k.
Proof.
  revert k. induction l as [|x l IH]; intros k.
  - change (comprehension f []) with (Ok (@nil B)).
    split; [intros [= <-]; constructor | by inversion 1].
  - rewrite comprehension_cons. destruct (f x) as [y | e] eqn:Hfx.
    + rewrite bind_Ok. destruct (comprehension f l) as [k' | e].
      * rewrite bind_Ok. split.
        -- intros [= <-]. constructor; [done | by apply IH].
        -- inversion 1 as [|? ? ? ? Hy Hk]; subst.
           apply IH in Hk. congruence.
      * rewrite bind_Raise. split; [done |].
        inversion 1 as [|? ? ? ? Hy Hk]; subst. by apply IH in Hk.
    + rewrite bind_Raise. split; [done |]. inversion 1; congruence.
Qed.

Lemma comprehension_Raise {A B : Type} (f : A → res B) (l : list A) (e : exn) :
  comprehension f l = Raise e → ∃ x, x ∈ l ∧ f x = Raise e.
Proof.
  induction l as [|x l IH]; [done |].
  rewrite comprehension_cons. destruct (f x) as [y | e'] eqn:Hfx.
  - rewrite bind_Ok. destruct (comprehension f l) as [k' | e'']; [done |].
    rewrite bind_Raise. intros [= ->]. destruct IH as (x' & ? & ?); [done |].
    exists x'. split; [by right | done].
  - rewrite bind_Raise. intros [= ->]. exists x. split; [by left | done].
Qed.

(** The only exception [service_state_allign] can raise is the
    [IndexError] of [split()[1]]. *)
Lemma services_ending_raise (suffix : string) (l : list string) (e : exn) :
  services_ending suffix l = Raise e → e = IndexError.
Proof.
  intros (x & _ & Hx)%comprehension_Raise.
  unfold Py.getitem in Hx. destruct (Py.split x !! 1); congruence.
Qed.

Lemma service_state_allign_raise (lines : list string) (prefix : string) (e : exn) :
  service_state_allign lines prefix = Raise e → e = IndexError.
Proof.
  unfold service_state_allign.
  destruct (services_ending "error" _) as [errs | e1] eqn:H1; simpl.
  - destruct (services_ending "done" _) as [dones | e2] eqn:H2; simpl; [done |].
    intros [= <-]. by apply services_ending_raise in H2.
  - intros [= <-]. by apply services_ending_raise in H1.
Qed.

Lemma eval_change_up stderr_lines stdout_lines :
  eval_change "up" stderr_lines stdout_lines =
  Ok (Py.any_sets (fun valid_line => negb (Py.endswith valid_line "up-to-date"))
        (List.filter (fun ln => Py.startswith ln "Starting"
                                || Py.startswith ln "Creating") stderr_lines)
        false, false).
Proof. unfold eval_change. decide_actions. reflexivity. Qed.

Lemma eval_change_build stderr_lines stdout_lines :
  eval_change "build" stderr_lines stdout_lines =
  Ok (false, Py.any_sets (Py.contains "failed to build") stderr_lines false).
Proof. unfold eval_change. decide_actions. reflexivity. Qed.

Lemma eval_change_pause stderr_lines stdout_lines :
  eval_change "pause" stderr_lines stdout_lines =
  service_state ← service_state_allign stderr_lines "Pausing";
  Ok (state_loop "is already paused" service_state false, false).
Proof.
  unfold eval_change. decide_actions.
  by destruct (service_state_allign stderr_lines "Pausing").
Qed.

(** The [failed] flag is only ever touched by the [build] branch, and only
    the two branches that call [service_state_allign] can raise. *)
Lemma eval_change_failed action stderr_lines stdout_lines :
  match eval_change action stderr_lines stdout_lines with
  | Ok (changed, failed) =>
      failed = bool_decide (action = "build")
               && Py.any_sets (Py.contains "failed to build") stderr_lines false
  | Raise e => e = IndexError ∧ (action = "pause" ∨ action = "unpause")
  end.
Proof.
  unfold eval_change.
  destruct (decide (action = "pause")) as [-> | Hpause].
  { decide_actions.
    destruct (service_state_allign stderr_lines "Pausing") as [m | e] eqn:Hm;
      [done |]. apply service_state_allign_raise in Hm as ->. simpl. auto. }
  destruct (decide (action = "unpause")) as [-> | Hunpause].
  { decide_actions.
    destruct (service_state_allign stderr_lines "Unpausing") as [m | e] eqn:Hm;
      [done |]. apply service_state_allign_raise in Hm as ->. simpl. auto. }
  rewrite (bool_decide_eq_false_2 (action = "pause")) by done.
  rewrite (bool_decide_eq_false_2 (action = "unpause")) by done.
  simpl. by destruct (bool_decide (action = "build")).
Qed.

Lemma In_filter_iff {A : Type} (p : A → bool) (l : list A) (x : A) :
  x ∈ List.filter p l ↔ x ∈ l ∧ p x = true.
Proof. by rewrite !list_elem_of_In, filter_In. Qed.

(** C1: under [up] the classifier always returns, with [failed] false and
    [changed] true exactly when some stderr line starts with "Starting" or
    "Creating" and does not end with "up-to-date". *)
Theorem up_changed_iff stderr_lines stdout_lines :
  ∃ changed,
    eval_change "up" stderr_lines stdout_lines = Ok (changed, false) ∧
    (changed = true ↔
     ∃ ln, ln ∈ stderr_lines
           ∧ (Py.startswith ln "Starting" = true ∨ Py.startswith ln "Creating" = true)
           ∧ Py.endswith ln "up-to-date" = false).
Proof.
  rewrite eval_change_up. eexists. split; [reflexivity |].
  rewrite any_sets_true_iff. split.
  - intros (ln & Hin & Hend). apply In_filter_iff in Hin as [Hin Hstart].
    exists ln. split; [done |]. split.
    + by apply orb_true_iff.
    + by apply negb_true_iff.
  - intros (ln & Hin & Hstart & Hend). exists ln. split.
    + apply In_filter_iff. split; [done |]. by apply orb_true_iff.
    + by apply negb_true_iff.
Qed.

(** C2, as the spec words it, fails: a "Starting ... done" line does not end
    with "up-to-date", so the classifier reports a change. *)
Lemma up_starting_done_not_unchanged :
  eval_change "up" ["Starting web ... done"] [] ≠ Ok (false, false).
Proof. rewrite eval_change_up. vm_compute. discriminate. Qed.

(** C2, amended: under [up], stderr ["Starting web ... done"] gives
    changed=true and failed=false, and stderr ["Creating db ... done";
    "Starting web"] gives changed=true. *)
Theorem up_examples :
  eval_change "up" ["Starting web ... done"] [] = Ok (true, false)
  ∧ eval_change "up" ["Creating db ... done"; "Starting web"] [] = Ok (true, false).
Proof. rewrite !eval_change_up. split; vm_compute; reflexivity. Qed.

(** C6: the classifier is not total.  A line that starts with the prefix,
    ends with "done" (or "error") and has a single whitespace-delimited
    token makes [split()[1]] raise [IndexError], under [pause] and under
    [unpause] alike. *)
Theorem eval_change_raises :
  eval_change "pause" ["Pausingdone"] [] = Raise IndexError
  ∧ eval_change "unpause" ["Unpausing-web-error"] [] = Raise IndexError.
Proof. split; vm_compute; reflexivity. Qed.

(** Every action other than [pause] and [unpause] is classified without an
    exception. *)
Lemma eval_change_returns action stderr_lines stdout_lines :
  action ≠ "pause" → action ≠ "unpause" →
  returns (eval_change action stderr_lines stdout_lines).
Proof.
  intros Hpause Hunpause.
  pose proof (eval_change_failed action stderr_lines stdout_lines) as H.
  destruct (eval_change action stderr_lines stdout_lines) as [r | e].
  - by exists r.
  - destruct H as [_ [? | ?]]; done.
Qed.

(** C7: whenever the classifier returns a pair, [failed] is true exactly
    when the action is [build] and some stderr line contains "failed to
    build", and under [build] changed is false; it returns for every action
    but [pause] and [unpause].  A stderr line containing "failed to build: no
    such file" under [build] gives failed=true and changed=false. *)
Theorem failed_only_build :
  (∀ action stderr_lines stdout_lines,
     match eval_change action stderr_lines stdout_lines with
     | Ok (changed, failed) =>
         (failed = true ↔
          action = "build"
          ∧ ∃ ln, ln ∈ stderr_lines ∧ Py.contains "failed to build" ln = true)
         ∧ (action = "build" → changed = false)
     | Raise _ => action = "pause" ∨ action = "unpause"
     end)
  ∧ (∀ stderr_lines stdout_lines ln,
       ln ∈ stderr_lines →
       Py.contains "failed to build: no such file" ln = true →
       eval_change "build" stderr_lines stdout_lines = Ok (false, true)).
Proof.
  split.
  - intros action stderr_lines stdout_lines.
    pose proof (eval_change_failed action stderr_lines stdout_lines) as H.
    destruct (eval_change action stderr_lines stdout_lines) as [[changed failed] | e] eqn:He;
      [| by destruct H].
    split.
    + rewrite H, andb_true_iff, bool_decide_eq_true, any_sets_true_iff. done.
    + intros ->. rewrite eval_change_build in He. congruence.
  - intros stderr_lines stdout_lines ln Hin Hln.
    rewrite eval_change_build. do 2 f_equal.
    apply any_sets_true_iff. exists ln. split; [done |].
    by apply (contains_shorter "failed to build" ": no such file").
Qed.

Lemma failed_only_build_witness :
  eval_change "build" ["Building web"; "ERROR: failed to build: no such file"] []
  = Ok (false, true).
Proof.
  apply (proj2 failed_only_build _ _ "ERROR: failed to build: no such file").
  - apply list_elem_of_In. simpl. auto.
  - vm_compute. reflexivity.
Defined.

End Classifier.

(** * The service-state alignment *)

Section Alignment.

Implicit Types (lines errs : list string) (st : gmap string string).

Lemma record_errors_lookup errs st (service k : string) :
  record_errors errs st service !! k =
  if decide (k = service)
  then match last (List.filter (Py.contains service) errs) with
       | Some e => Some e
       | None => st !! k
       end
  else st !! k.
Proof.
  unfold record_errors. revert st.
  induction errs as [|e errs IH]; intros st; simpl.
  - by case_decide.
  - rewrite IH. destruct (Py.contains service e) eqn:He.
    + rewrite last_cons. case_decide as Hk; [subst k | by rewrite lookup_insert_ne].
      rewrite lookup_insert_eq. by destruct (last _).
    + done.
Qed.

Lemma error_loop_lookup errs (services : list string) st (k : string) :
  fold_left (record_errors errs) services st !! k =
  if decide (k ∈ services)
  then match last (List.filter (Py.contains k) errs) with
       | Some e => Some e
       | None => st !! k
       end
  else st !! k.
Proof.
  revert st. induction services as [|s services IH]; intros st; simpl; [done |].
  rewrite IH, record_errors_lookup.
  destruct (decide (k ∈ s :: services)) as [Hin | Hnin];
    rewrite elem_of_cons in *.
  - destruct (decide (k = s)) as [-> | Hne].
    + case_decide; by destruct (last _).
    + case_decide; [done | naive_solver].
  - destruct (decide (k = s)) as [-> | Hne]; [naive_solver |].
    case_decide; [naive_solver | done].
Qed.

Lemma done_loop_lookup (services : list string) st (k : string) :
  fold_left (fun st done_service => <[done_service := "done"]> st) services st !! k =
  if decide (k ∈ services) then Some "done" else st !! k.
Proof.
  revert st. induction services as [|s services IH]; intros st; simpl; [done |].
  rewrite IH.
  destruct (decide (k ∈ s :: services)) as [Hin | Hnin];
    rewrite elem_of_cons in *.
  - case_decide; [done |].
    destruct Hin as [-> | ?]; [apply lookup_insert_eq | done].
  - case_decide; [naive_solver |].
    rewrite lookup_insert_ne; [done | naive_solver].
Qed.

Lemma getitem_Ok {A : Type} (l : list A) (i : nat) (y : A) :
  Py.getitem l i = Ok y ↔ l !! i = Some y.
Proof. unfold Py.getitem. destruct (l !! i); naive_solver. Qed.

(** The names [services_ending] collects are the second tokens of the
    lines that end with [suffix]. *)
Lemma elem_of_services_ending (suffix : string) (l names : list string) (k : string) :
  services_ending suffix l = Ok names →
  k ∈ names ↔ ∃ ln, ln ∈ l ∧ Py.endswith ln suffix = true ∧ Py.split ln !! 1 = Some k.
Proof.
  unfold services_ending. rewrite comprehension_Ok. intros HF.
  trans (∃ ln, ln ∈ List.filter (fun ps => Py.endswith ps suffix) l
               ∧ Py.split ln !! 1 = Some k).
  - induction HF as [|x y l1 l2 Hxy HF IH].
    + split; [by intros ?%elem_of_nil | by intros (? & ?%elem_of_nil & _)].
    + rewrite elem_of_cons, IH. apply getitem_Ok in Hxy. split.
      * intros [-> | (ln & ? & ?)]; [exists x | exists ln];
          (split; [rewrite elem_of_cons; auto | done]).
      * intros (ln & [-> | ?]%elem_of_cons & Hln); [left; congruence | right; eauto].
  - split; intros (ln & Hin & Hln); exists ln.
    + apply In_filter_iff in Hin as [? ?]. done.
    + split; [apply In_filter_iff |]; naive_solver.
Qed.

(** What the mapping holds for a name, read off the source's two loops. *)
Lemma service_state_allign_lookup lines (prefix : string) st (k : string) :
  service_state_allign lines prefix = Ok st →
  ∃ error_services done_services,
    services_ending "error" (pausing_lines lines prefix) = Ok error_services
    ∧ services_ending "done" (pausing_lines lines prefix) = Ok done_services
    ∧ st !! k =
      if decide (k ∈ done_services) then Some "done"
      else if decide (k ∈ error_services)
           then last (List.filter (Py.contains k) (error_lines lines))
           else None.
Proof.
  unfold service_state_allign.
  destruct (services_ending "error" _) as [errs | e1]; [| done].
  destruct (services_ending "done" _) as [dones | e2]; [| done].
  simpl. intros [= <-]. exists errs, dones. do 2 (split; [done |]).
  rewrite done_loop_lookup, error_loop_lookup, lookup_empty.
  repeat case_decide; try done. by destruct (last _).
Qed.

Lemma state_loop_true_iff (suffix : string) st :
  state_loop suffix st false = true ↔
  ∃ service state, st !! service = Some state ∧ Py.endswith state suffix = false.
Proof.
  unfold state_loop. rewrite any_sets_true_iff. split.
  - intros ([service state] & Hin%elem_of_map_to_list & Hend).
    exists service, state. split; [done | by apply negb_true_iff].
  - intros (service & state & Hst & Hend). exists (service, state).
    split; [by apply elem_of_map_to_list | by apply negb_true_iff].
Qed.

(** C8: under [pause], whenever the alignment of the stderr lines with
    prefix "Pausing" yields a mapping, the classifier returns with [changed]
    true exactly when some service's state in that mapping does not end with
    "is already paused" (and it raises when the alignment does).  When the
    mapping shows one service whose state ends with "is already paused" and
    one that is "done", changed is true. *)
Theorem pause_changed_iff :
  (∀ stderr_lines stdout_lines,
     match service_state_allign stderr_lines "Pausing" with
     | Ok service_state =>
         ∃ changed,
           eval_change "pause" stderr_lines stdout_lines = Ok (changed, false)
           ∧ (changed = true ↔
              ∃ service state,
                service_state !! service = Some state
                ∧ Py.endswith state "is already paused" = false)
     | Raise e => eval_change "pause" stderr_lines stdout_lines = Raise e
     end)
  ∧ (∀ stderr_lines stdout_lines service_state paused state finished,
       service_state_allign stderr_lines "Pausing" = Ok service_state →
       service_state !! paused = Some state →
       Py.endswith state "is already paused" = true →
       service_state !! finished = Some "done" →
       eval_change "pause" stderr_lines stdout_lines = Ok (true, false)).
Proof.
  split.
  - intros stderr_lines stdout_lines. rewrite eval_change_pause.
    destruct (service_state_allign stderr_lines "Pausing") as [st | e]; [| done].
    rewrite bind_Ok. eexists. split; [reflexivity |]. apply state_loop_true_iff.
  - intros stderr_lines stdout_lines st paused state finished Hst _ _ Hdone.
    rewrite eval_change_pause, Hst, bind_Ok. do 2 f_equal.
    apply state_loop_true_iff. by exists finished, "done".
Qed.

Lemma pause_changed_iff_witness :
  eval_change "pause" pause_mixed_lines [] = Ok (true, false).
Proof.
  apply (proj2 pause_changed_iff pause_mixed_lines []
           {[ "web" := "ERROR: for web  Container 1f is already paused";
              "db" := "done" ]}
           "web" "ERROR: for web  Container 1f is already paused" "db").
  - vm_compute. reflexivity.
  - vm_compute. reflexivity.
  - vm_compute. reflexivity.
  - vm_compute. reflexivity.
Defined.

(** C10, as worded, fails: "Pausing web ... error" is a completed line
    ending in "error" whose service name is in no "ERROR" line, yet the
    mapping has an entry for [web], because a completed line ending in
    "done" names the same service. *)
Lemma error_service_not_absent :
  "Pausing web ... error" ∈ pausing_lines pause_twice_lines "Pausing"
  ∧ Py.endswith "Pausing web ... error" "error" = true
  ∧ Py.split "Pausing web ... error" !! 1 = Some "web"
  ∧ List.filter (Py.contains "web") (error_lines pause_twice_lines) = []
  ∧ ∃ service_state,
      service_state_allign pause_twice_lines "Pausing" = Ok service_state
      ∧ service_state !! "web" = Some "done".
Proof.
  split; [apply list_elem_of_In; vm_compute; auto |].
  do 3 (split; [vm_compute; reflexivity |]).
  eexists. split; [reflexivity |]. vm_compute. reflexivity.
Qed.

(** C10, amended: for a completed line ending in "error" whose second
    token is [service], if no completed line ending in "done" has that
    second token, the mapping holds for [service] the full text of the last
    "ERROR" line that contains the name, and no entry at all when no
    "ERROR" line contains it; if some completed line ending in "done" has
    that second token, the entry is "done". *)
Theorem error_service_entry lines (prefix ln service : string) st :
  service_state_allign lines prefix = Ok st →
  ln ∈ pausing_lines lines prefix →
  Py.endswith ln "error" = true →
  Py.split ln !! 1 = Some service →
  ((∀ d, d ∈ pausing_lines lines prefix → Py.endswith d "done" = true →
         Py.split d !! 1 ≠ Some service) →
   st !! service = last (List.filter (Py.contains service) (error_lines lines)))
  ∧ ((∃ d, d ∈ pausing_lines lines prefix ∧ Py.endswith d "done" = true
           ∧ Py.split d !! 1 = Some service) →
     st !! service = Some "done").
Proof.
  intros Hst Hln Herror Hservice.
  destruct (service_state_allign_lookup _ _ _ service Hst)
    as (error_services & done_services & Herrs & Hdones & ->).
  pose proof (elem_of_services_ending _ _ _ service Herrs) as Hin_err.
  pose proof (elem_of_services_ending _ _ _ service Hdones) as Hin_done.
  split.
  - intros Hnone. rewrite decide_False, decide_True; [done | |].
    + apply Hin_err. eauto.
    + intros (d & ? & ? & ?)%Hin_done. by eapply Hnone.
  - intros Hsome. by rewrite decide_True by by apply Hin_done.
Qed.

Lemma error_service_entry_witness :
  ∃ st, service_state_allign pause_two_errors_lines "Pausing" = Ok st
        ∧ st !! "web" = Some "ERROR: for web  second".
Proof.
  eexists. split; [reflexivity |].
  refine (proj1 (error_service_entry pause_two_errors_lines "Pausing"
                   "Pausing web ... error" "web" _ eq_refl _ _ _) _).
  - apply list_elem_of_In. vm_compute. auto.
  - vm_compute. reflexivity.
  - vm_compute. reflexivity.
  - intros d Hd Hdone.
    apply list_elem_of_In in Hd. vm_compute in Hd.
    destruct Hd as [<- | []]. vm_compute in Hdone. discriminate.
Defined.

End Alignment.

(** * The dependency resolver *)

Section Resolver.

Implicit Types (info all_services : pyval) (services : list string)
  (acc deps T : gset atom).

Lemma resolve_service_acc all_services acc (service : string) :
  resolve_service all_services acc service =
  added ← resolve_service all_services ∅ service; Ok (acc ∪ added).
Proof.
  unfold resolve_service.
  destruct (PyVal.get all_services _ _) as [cs | e]; [| done]. rewrite !bind_Ok.
  destruct (PyVal.get cs _ _) as [dep | e]; [| done]. rewrite !bind_Ok.
  destruct (PyVal.as_list dep) as [l | e]; [| done]. rewrite !bind_Ok.
  destruct (PyVal.set l) as [added | e]; [| done]. rewrite !bind_Ok.
  by rewrite (left_id_L ∅ (∪)).
Qed.

(** A pass that succeeds keeps what it started from and has added the
    dependencies of every service it walked. *)
Lemma for_each_resolve_Ok all_services services acc deps :
  for_each (resolve_service all_services) services acc = Ok deps →
  acc ⊆ deps
  ∧ ∀ s, s ∈ services →
         ∃ added, resolve_service all_services ∅ s = Ok added ∧ added ⊆ deps.
Proof.
  revert acc. induction services as [|s services IH]; intros acc; simpl.
  - intros [= <-]. split; [done | by intros s ?%elem_of_nil].
  - rewrite resolve_service_acc.
    destruct (resolve_service all_services ∅ s) as [added | e] eqn:Hs; [| done].
    rewrite !bind_Ok. intros [Hacc Hrest]%IH. split; [set_solver |].
    intros s' [-> | Hin]%elem_of_cons; [| by apply Hrest].
    exists added. split; [done | set_solver].
Qed.

(** A pass over services whose dependencies all lie in [T] succeeds and
    stays inside [T]. *)
Lemma for_each_resolve_within all_services services acc T :
  acc ⊆ T →
  (∀ s, s ∈ services →
        ∃ added, resolve_service all_services ∅ s = Ok added ∧ added ⊆ T) →
  ∃ deps, for_each (resolve_service all_services) services acc = Ok deps ∧ deps ⊆ T.
Proof.
  revert acc. induction services as [|s services IH]; intros acc Hacc Hall; simpl.
  - by exists acc.
  - destruct (Hall s) as (added & Hs & Hadded); [by left |].
    rewrite resolve_service_acc, Hs, !bind_Ok.
    apply IH; [set_solver |]. intros s' Hin. apply Hall. by right.
Qed.

(** C3, as worded, fails: the expansion of [a] in a chain [a → b → c] is
    [{a, b}], and expanding [{a, b}] again adds [c]. *)
Lemma expand_not_idempotent :
  expand doc_chain ["a"] = Ok {[ AStr "a"; AStr "b" ]}
  ∧ list_to_set (AStr <$> ["a"; "b"]) = ({[ AStr "a"; AStr "b" ]} : gset atom)
  ∧ expand doc_chain ["a"; "b"] = Ok {[ AStr "a"; AStr "b"; AStr "c" ]}
  ∧ expand doc_chain ["a"; "b"] ≠ Ok {[ AStr "a"; AStr "b" ]}.
Proof.
  repeat split; try (vm_compute; reflexivity).
  vm_compute. discriminate.
Qed.

(** C3, amended: expanding an already-expanded set again yields that same
    set when every service the first pass added has its own [depends_on]
    entries inside the expanded set (for instance, none). *)
Theorem expand_idempotent_when_closed info services (services' : list string) T :
  expand info services = Ok T →
  list_to_set (AStr <$> services') = T →
  (∀ s, s ∈ services' → s ∉ services →
        ∃ added, declared_dependencies info s = Ok added ∧ added ⊆ T) →
  expand info services' = Ok T.
Proof.
  unfold expand, resolve_dependencies, declared_dependencies. simpl.
  destruct (PyVal.get info _ _) as [all_services | e]; [| done].
  rewrite !bind_Ok.
  destruct (for_each _ services ∅) as [deps | e] eqn:Hfirst; [| done].
  rewrite bind_Ok. intros [= <-] Hsame Hclosed.
  apply for_each_resolve_Ok in Hfirst as [_ Hfirst].
  destruct (for_each_resolve_within all_services services' ∅
              (effective_services deps services)) as (deps' & -> & Hdeps').
  - set_solver.
  - intros s Hs. destruct (decide (s ∈ services)) as [Hin | Hnin].
    + destruct (Hfirst s Hin) as (added & ? & ?). exists added.
      split; [done |]. unfold effective_services. set_solver.
    + specialize (Hclosed s Hs Hnin). by rewrite bind_Ok in Hclosed.
  - rewrite bind_Ok. f_equal. unfold effective_services in *. set_solver.
Qed.

Lemma expand_idempotent_when_closed_witness :
  expand doc_flat ["db"; "web"] = Ok {[ AStr "web"; AStr "db" ]}.
Proof.
  apply (expand_idempotent_when_closed doc_flat ["web"]).
  - vm_compute. reflexivity.
  - vm_compute. reflexivity.
  - intros s Hs Hnot. exists ∅. split; [| done].
    apply list_elem_of_In in Hs. simpl in Hs.
    destruct Hs as [<- | [<- | []]].
    + vm_compute. reflexivity.
    + exfalso. apply Hnot. by left.
Defined.

(** C9: when the loaded document is a mapping without a [services] key,
    some service is requested and dependencies are not suppressed, the
    resolver raises ([AttributeError]: the fallback of the lookup is a list,
    which has no [get]). *)
Theorem missing_services_key_raises (d : gmap atom pyval) services :
  d !! AStr "services" = None →
  services ≠ [] →
  resolve_dependencies (PyDict d) services false = Raise AttributeError.
Proof.
  intros Hd Hne. unfold resolve_dependencies. simpl. rewrite Hd. simpl.
  by destruct services.
Qed.

Lemma missing_services_key_raises_witness :
  resolve_dependencies (PyDict doc_v1) ["web"] false = Raise AttributeError.
Proof.
  apply missing_services_key_raises.
  - vm_compute. reflexivity.
  - discriminate.
Defined.

End Resolver.

(** * main *)

Section Main.

Implicit Types (w : world) (p : params).

Lemma bind_pure {A B : Type} (a : A) (k : A → prog B) (trace : list string) :
  (pure a ≫= k) trace = k a trace.
Proof. reflexivity. Qed.

Lemma bind_finish {A B : Type} (o : outcome) (k : A → prog B) (trace : list string) :
  (finish o ≫= k) trace = (trace, inl o).
Proof. reflexivity. Qed.

Lemma bind_invoke {B : Type} w (command_str : string)
    (k : Z * string * string → prog B) (trace : list string) :
  (invoke w command_str ≫= k) trace =
  k (run_command w command_str) (trace ++ [command_str]).
Proof. reflexivity. Qed.

(** What is left of [main] after the last command has run never runs
    another one. *)
Lemma report_trace (a : action) (rc : Z) (stdout stderr : string)
    (trace : list string) :
  ∃ o, report a rc stdout stderr trace = (trace, inl o).
Proof.
  unfold report.
  destruct (eval_change _ _ _) as [[changed [|]] | e]; eexists; reflexivity.
Qed.

(** C5: [down] with a non-empty service list always ends in [fail_json]
    with one of the configuration messages, whatever the other parameters
    and the machine are, and no command has been run by then.  When the
    binary and the compose file are in place the message is the one about
    the argument combination. *)
Theorem down_with_services_rejected w p :
  command p = down →
  services p ≠ [] →
  ∃ msg,
    main w p = ([], fail_json msg None)
    ∧ msg ∈ ["docker-compose binary not found";
             "Location does not exists. Enter full path and compose filename.";
             "You cannot specify the command as down and a number of services"]
    ∧ (is_Some (find_compose_cmd w) →
       path_exists w (location p) = true →
       path_isfile w (location p) = true →
       msg = "You cannot specify the command as down and a number of services").
Proof.
  intros Hdown Hservices. unfold main, main_body.
  assert (Hlen : bool_decide (1 ≤ length (services p)) = true).
  { apply bool_decide_eq_true_2. destruct (services p); [done | simpl; lia]. }
  destruct (find_compose_cmd w) as [cmd |];
    [destruct (path_exists w (location p)), (path_isfile w (location p)) |];
    simpl; rewrite ?Hdown, ?Hlen; simpl;
    (eexists; split; [reflexivity |]; split; [set_solver |]); done.
Qed.

Lemma down_with_services_rejected_witness :
  ∃ msg,
    main world_ok {| location := "/srv/app/docker-compose.yml"; services := ["a"];
                     command := down; ignoredependencys := false;
                     removevolumes := true |} = ([], fail_json msg None)
    ∧ msg = "You cannot specify the command as down and a number of services".
Proof.
  destruct (down_with_services_rejected world_ok
              {| location := "/srv/app/docker-compose.yml"; services := ["a"];
                 command := down; ignoredependencys := false;
                 removevolumes := true |} eq_refl)
    as (msg & Hmain & _ & Hmsg).
  - discriminate.
  - exists msg. split; [exact Hmain |].
    apply Hmsg; [by eexists | reflexivity | reflexivity].
Defined.

Lemma as_str_strings (names : list string) :
  mapM PyVal.as_str (AStr <$> names) = Ok names.
Proof.
  induction names as [|s names IH]; [done |].
  change (mapM PyVal.as_str (AStr <$> s :: names))
    with (y ← PyVal.as_str (AStr s);
          k ← mapM PyVal.as_str (AStr <$> names); Ok (y :: k)).
  by rewrite IH.
Qed.

Lemma all_strings (l : list atom) :
  (∀ a, a ∈ l → ∃ s, a = AStr s) → ∃ names, l = AStr <$> names.
Proof.
  induction l as [|a l IH]; intros Hall; [by exists [] |].
  destruct (Hall a) as [s ->]; [by left |].
  destruct IH as [names ->]; [intros b Hb; apply Hall; by right |].
  by exists (s :: names).
Qed.

(** With no dependency added, what the command line gets is the requested
    names, each once, in the order the set is walked. *)
Lemma join_services_requested w (services : list string) :
  ∃ names,
    join_services w ∅ services = Ok (Py.join " " names)
    ∧ NoDup names
    ∧ ∀ s, s ∈ names ↔ s ∈ services.
Proof.
  unfold join_services.
  pose proof (set_order_elements w (effective_services ∅ services)) as Hperm.
  assert (Hmem : ∀ a, a ∈ set_order w (effective_services ∅ services)
                      ↔ a ∈ AStr <$> services).
  { intros a. rewrite Hperm, elem_of_elements. unfold effective_services.
    rewrite elem_of_union, elem_of_list_to_set. set_solver. }
  assert (Hnodup : NoDup (set_order w (effective_services ∅ services))).
  { rewrite Hperm. apply NoDup_elements. }
  destruct (all_strings (set_order w (effective_services ∅ services)))
    as [names Hnames].
  { intros a (s & -> & _)%Hmem%list_elem_of_fmap. by exists s. }
  rewrite Hnames in *. exists names. rewrite as_str_strings, bind_Ok.
  split; [done |]. split; [by apply NoDup_fmap_1 in Hnodup |].
  intros s. rewrite <- (list_elem_of_fmap_inj AStr), Hmem.
  apply (list_elem_of_fmap_inj AStr).
Qed.

Local Arguments Py.join : simpl never.
Local Arguments report : simpl never.

(** C4: with [ignoredependencys] set no dependency is added, whatever the
    compose document holds, and the service set on the command lines is
    exactly the requested one, each name once: on a machine where the run
    gets as far as the command line (and, under [down], with the empty
    list the module insists on) the commands run are the [unpause] of
    [stop] and [down] and the command itself, both with the requested names;
    [down] itself takes no service list. *)
Theorem ignoredependencys_exact w p (COMPOSE_CMD : string) (info : pyval) :
  ignoredependencys p = true →
  find_compose_cmd w = Some COMPOSE_CMD →
  path_exists w (location p) = true →
  path_isfile w (location p) = true →
  load_yaml w (location p) = Some info →
  chdir_dirname w (location p) = true →
  (command p = down → services p = []) →
  ∃ names,
    NoDup names
    ∧ (∀ s, s ∈ names ↔ s ∈ services p)
    ∧ resolve_dependencies info (services p) (ignoredependencys p) = Ok ∅
    ∧ effective_services ∅ (services p) = list_to_set (AStr <$> services p)
    ∧ (main w p).1 =
      (if bool_decide (command p = stop) || bool_decide (command p = down)
       then [Py.join " " [COMPOSE_CMD; "unpause"; Py.join " " names]]
       else [])
      ++ [Py.join " "
            ([COMPOSE_CMD; verb (command p)]
             ++ (if bool_decide (command p = down)
                 then (if removevolumes p then ["-v"] else [])
                 else [Py.join " " names]))].
Proof.
  intros Hign Hcmd Hexists Hisfile Hyaml Hchdir Hdown.
  destruct (join_services_requested w (services p)) as (names & Hjoin & Hnodup & Hmem).
  exists names. do 2 (split; [done |]).
  split; [by rewrite Hign |].
  split; [unfold effective_services; by rewrite (left_id_L ∅ (∪)) |].
  unfold main, main_body.
  rewrite Hcmd, Hexists, Hisfile, Hyaml, Hchdir, Hign.
  assert (Hgate : bool_decide (command p = down)
                  && bool_decide (1 ≤ length (services p)) = false).
  { destruct (decide (command p = down)) as [Hd | Hd].
    - rewrite (Hdown Hd). by rewrite andb_false_r.
    - by rewrite (bool_decide_eq_false_2 _ Hd). }
  rewrite Hgate. cbn [negb orb andb resolve_dependencies lift].
  rewrite !bind_pure.
  destruct (bool_decide (command p = down)) eqn:Hd;
    destruct (bool_decide (command p = stop)) eqn:Hs;
    cbn [negb orb andb]; rewrite ?Hjoin; cbn [lift];
    rewrite ?bind_pure, ?bind_invoke, ?bind_pure.
  all: unfold mbind, prog_bind, pure, invoke; simpl.
  all: try destruct (removevolumes p); simpl.
  all: repeat match goal with
       | |- context [run_command ?w0 ?c] =>
           destruct (run_command w0 c) as [[rc stdout] stderr]
       end.
  all: match goal with
       | |- context [report ?a ?rc ?out ?err ?t] =>
           destruct (report_trace a rc out err t) as [o ->]
       end.
  all: reflexivity.
Qed.

Lemma ignoredependencys_exact_witness :
  ∃ names,
    NoDup names
    ∧ (∀ s, s ∈ names ↔ s ∈ ["a"])
    ∧ (main world_ok {| location := "/srv/app/docker-compose.yml"; services := ["a"];
                        command := stop; ignoredependencys := true;
                        removevolumes := true |}).1 =
      ["/usr/bin/docker-compose unpause " +:+ Py.join " " names;
       "/usr/bin/docker-compose stop " +:+ Py.join " " names].
Proof.
  destruct (ignoredependencys_exact world_ok
              {| location := "/srv/app/docker-compose.yml"; services := ["a"];
                 command := stop; ignoredependencys := true;
                 removevolumes := true |}
              "/usr/bin/docker-compose" doc_chain
              eq_refl eq_refl eq_refl eq_refl eq_refl eq_refl)
    as (names & Hnodup & Hmem & _ & _ & Htrace).
  - discriminate.
  - exists names. split; [exact Hnodup |]. split; [exact Hmem |].
    rewrite Htrace. reflexivity.
Defined.

End Main.

(** * The remaining rows of the classifier *)

Section Actions.

Implicit Types (action : string) (stderr_lines stdout_lines : list string).

Lemma eval_change_unpause stderr_lines stdout_lines :
  eval_change "unpause" stderr_lines stdout_lines =
  service_state ← service_state_allign stderr_lines "Unpausing";
  Ok (state_loop "is not paused" service_state false, false).
Proof.
  unfold eval_change. decide_actions.
  by destruct (service_state_allign stderr_lines "Unpausing").
Qed.

Lemma length_pos_iff {A : Type} (l : list A) :
  bool_decide (0 < length l) = bool_decide (l ≠ []).
Proof.
  apply bool_decide_ext. destruct l; simpl; split; intros; try done; lia.
Qed.

(** X1: under [pull] the classifier always returns, with [failed] false
    and [changed] true exactly when some stdout line contains "Status:
    Downloaded newer image"; what is on stderr plays no part. *)
Theorem pull_changed_iff stderr_lines stdout_lines :
  ∃ changed,
    eval_change "pull" stderr_lines stdout_lines = Ok (changed, false)
    ∧ eval_change "pull" [] stdout_lines = Ok (changed, false)
    ∧ (changed = true ↔
       ∃ ln, ln ∈ stdout_lines
             ∧ Py.contains "Status: Downloaded newer image" ln = true).
Proof.
  unfold eval_change. decide_actions. eexists.
  do 2 (split; [reflexivity |]). apply any_sets_true_iff.
Qed.

Lemma eval_change_stop_create action stderr_lines stdout_lines :
  action = "stop" ∨ action = "create" →
  eval_change action stderr_lines stdout_lines
  = Ok (bool_decide (stderr_lines ≠ []), false).
Proof.
  intros [-> | ->]; unfold eval_change; decide_actions; simpl;
    rewrite length_pos_iff; by destruct (bool_decide _).
Qed.

(** X2: under [stop] and under [create] the classifier always returns,
    with [failed] false and [changed] true exactly when stderr has at least
    one line, whatever the lines say. *)
Theorem stop_create_changed_iff action stderr_lines stdout_lines :
  action = "stop" ∨ action = "create" →
  ∃ changed,
    eval_change action stderr_lines stdout_lines = Ok (changed, false)
    ∧ (changed = true ↔ stderr_lines ≠ []).
Proof.
  intros Haction. rewrite (eval_change_stop_create _ _ _ Haction).
  eexists. split; [reflexivity |]. apply bool_decide_eq_true.
Qed.

Lemma stop_create_changed_iff_witness :
  ∃ changed,
    eval_change "stop" ["Stopping web ... done"] [] = Ok (changed, false)
    ∧ (changed = true ↔ ["Stopping web ... done"] ≠ []).
Proof.
  apply stop_create_changed_iff. by left.
Defined.

(** X3: an action that has no rule of its own that can set a flag ([start],
    whose flag is reset, [down], which no branch mentions, and any other
    name) is classified as unchanged and not failed, whatever was
    printed. *)
Theorem other_actions_unchanged action stderr_lines stdout_lines :
  action ∉ ["up"; "pull"; "build"; "stop"; "create"; "pause"; "unpause"] →
  eval_change action stderr_lines stdout_lines = Ok (false, false).
Proof.
  intros Hnot. unfold eval_change.
  repeat match goal with
  | |- context [bool_decide (action = ?b)] =>
      first [ rewrite (bool_decide_eq_false_2 (action = b)) by set_solver
            | destruct (bool_decide (action = b)) ]
  end; reflexivity.
Qed.

Lemma other_actions_unchanged_witness :
  eval_change "start" ["Starting web ... done"] [] = Ok (false, false)
  ∧ eval_change "down" ["Removing web ... done"; "Removing network app"] []
    = Ok (false, false).
Proof.
  split; apply other_actions_unchanged; set_solver.
Defined.

(** X4: under [unpause], whenever the alignment of the stderr lines with
    prefix "Unpausing" yields a mapping, the classifier returns with
    [failed] false and [changed] true exactly when some service's state in
    the mapping does not end with "is not paused"; when the alignment
    raises, so does the classifier. *)
Theorem unpause_changed_iff stderr_lines stdout_lines :
  match service_state_allign stderr_lines "Unpausing" with
  | Ok service_state =>
      ∃ changed,
        eval_change "unpause" stderr_lines stdout_lines = Ok (changed, false)
        ∧ (changed = true ↔
           ∃ service state,
             service_state !! service = Some state
             ∧ Py.endswith state "is not paused" = false)
  | Raise e => eval_change "unpause" stderr_lines stdout_lines = Raise e
  end.
Proof.
  rewrite eval_change_unpause.
  destruct (service_state_allign stderr_lines "Unpausing") as [st | e]; [| done].
  rewrite bind_Ok. eexists. split; [reflexivity |]. apply state_loop_true_iff.
Qed.

End Actions.

(** * More about the service-state alignment *)

Section States.

Implicit Types (lines : list string) (st : gmap string string).

Lemma comprehension_returns_iff {A B : Type} (f : A → res B) (l : list A) :
  returns (comprehension f l) ↔ ∀ x, x ∈ l → returns (f x).
Proof.
  split.
  - intros [k Hk] x Hx. apply comprehension_Ok in Hk.
    apply list_elem_of_lookup in Hx as [i Hi].
    destruct (Forall2_lookup_l _ _ _ _ _ Hk Hi) as (y & _ & Hy). by exists y.
  - intros Hall. destruct (comprehension f l) as [k | e] eqn:Hc; [by exists k |].
    apply comprehension_Raise in Hc as (x & Hx & Hfx).
    destruct (Hall x Hx) as [y Hy]. congruence.
Qed.

Lemma getitem_returns_iff {A : Type} (l : list A) (i : nat) :
  returns (Py.getitem l i) ↔ i < length l.
Proof.
  unfold returns, Py.getitem. rewrite <- lookup_lt_is_Some.
  destruct (l !! i) as [x |]; split.
  - by eexists.
  - intros _. by exists x.
  - by intros [? ?].
  - by intros [? ?].
Qed.

Lemma services_ending_returns_iff (suffix : string) (l : list string) :
  returns (services_ending suffix l) ↔
  ∀ ln, ln ∈ l → Py.endswith ln suffix = true → 2 ≤ length (Py.split ln).
Proof.
  unfold services_ending. rewrite comprehension_returns_iff.
  setoid_rewrite In_filter_iff. setoid_rewrite getitem_returns_iff.
  naive_solver.
Qed.

(** X5: the alignment returns a mapping exactly when every completed line
    (one that starts with the prefix and, stripped, does not end with
    "...") that ends with "error" or with "done" has at least two
    whitespace-delimited tokens; otherwise it raises. *)
Theorem service_state_allign_returns_iff lines (prefix : string) :
  returns (service_state_allign lines prefix) ↔
  ∀ ln, ln ∈ lines →
        Py.startswith ln prefix = true →
        Py.endswith (Py.strip ln) "..." = false →
        Py.endswith ln "error" = true ∨ Py.endswith ln "done" = true →
        2 ≤ length (Py.split ln).
Proof.
  trans (returns (services_ending "error" (pausing_lines lines prefix))
         ∧ returns (services_ending "done" (pausing_lines lines prefix))).
  - unfold service_state_allign.
    destruct (services_ending "error" _) as [errs | e1];
      destruct (services_ending "done" _) as [dones | e2]; simpl;
      unfold returns; naive_solver.
  - rewrite !services_ending_returns_iff. unfold pausing_lines.
    setoid_rewrite In_filter_iff. setoid_rewrite andb_true_iff.
    setoid_rewrite negb_true_iff. naive_solver.
Qed.

Lemma last_filter_elem_of {A : Type} (p : A → bool) (l : list A) (x : A) :
  last (List.filter p l) = Some x → x ∈ l ∧ p x = true.
Proof.
  intros Hlast. apply In_filter_iff.
  rewrite last_lookup in Hlast. by eapply list_elem_of_lookup_2.
Qed.

(** X6: every entry of the mapping the alignment returns comes from the
    lines: its key is the second token of a completed line ending with
    "error" or "done", and its value is either the marker "done" or one of
    the lines that start with "ERROR" and contain the key. *)
Theorem service_state_entries lines (prefix service state : string) st :
  service_state_allign lines prefix = Ok st →
  st !! service = Some state →
  (∃ ln, ln ∈ lines
         ∧ Py.startswith ln prefix = true
         ∧ Py.endswith (Py.strip ln) "..." = false
         ∧ (Py.endswith ln "error" = true ∨ Py.endswith ln "done" = true)
         ∧ Py.split ln !! 1 = Some service)
  ∧ (state = "done"
     ∨ (state ∈ lines
        ∧ Py.startswith state "ERROR" = true
        ∧ Py.contains service state = true)).
Proof.
  intros Hst Hentry.
  destruct (service_state_allign_lookup _ _ _ service Hst)
    as (error_services & done_services & Herrs & Hdones & Hlookup).
  rewrite Hentry in Hlookup.
  assert (Hline : ∀ suffix names,
            services_ending suffix (pausing_lines lines prefix) = Ok names →
            service ∈ names →
            ∃ ln, ln ∈ lines ∧ Py.startswith ln prefix = true
                  ∧ Py.endswith (Py.strip ln) "..." = false
                  ∧ Py.endswith ln suffix = true
                  ∧ Py.split ln !! 1 = Some service).
  { intros suffix names Hnames Hin.
    apply (elem_of_services_ending _ _ _ service Hnames) in Hin
      as (ln & Hln & Hend & Htoken).
    apply In_filter_iff in Hln as [Hln [Hstart Hdots%negb_true_iff]%andb_true_iff].
    by exists ln. }
  destruct (decide (service ∈ done_services)) as [Hdone | Hnot_done].
  - injection Hlookup as ->. split; [| by left].
    destruct (Hline _ _ Hdones Hdone) as (ln & ? & ? & ? & ? & ?).
    exists ln. auto 10.
  - destruct (decide (service ∈ error_services)) as [Herr | Hnot_err]; [| done].
    split.
    + destruct (Hline _ _ Herrs Herr) as (ln & ? & ? & ? & ? & ?).
      exists ln. auto 10.
    + right. symmetry in Hlookup.
      apply last_filter_elem_of in Hlookup as [Hin Hcontains].
      apply In_filter_iff in Hin as [Hin Herror]. done.
Qed.

Lemma service_state_entries_witness :
  ∃ st, service_state_allign pause_mixed_lines "Pausing" = Ok st
        ∧ "ERROR: for web  Container 1f is already paused" ∈ pause_mixed_lines
        ∧ Py.contains "web" "ERROR: for web  Container 1f is already paused" = true.
Proof.
  eexists. split; [reflexivity |].
  destruct (service_state_entries pause_mixed_lines "Pausing" "web"
              "ERROR: for web  Container 1f is already paused" _ eq_refl)
    as [_ [Hdone | (Hin & _ & Hcontains)]].
  - vm_compute. reflexivity.
  - discriminate Hdone.
  - split; [exact Hin | exact Hcontains].
Defined.

(** X7: a completed line ending with "done" always wins: the mapping holds
    the marker "done" for its second token, whatever "error" and "ERROR"
    lines name the same service, before or after it. *)
Theorem done_service_entry lines (prefix ln service : string) st :
  service_state_allign lines prefix = Ok st →
  ln ∈ lines →
  Py.startswith ln prefix = true →
  Py.endswith (Py.strip ln) "..." = false →
  Py.endswith ln "done" = true →
  Py.split ln !! 1 = Some service →
  st !! service = Some "done".
Proof.
  intros Hst Hln Hstart Hdots Hdone Htoken.
  destruct (service_state_allign_lookup _ _ _ service Hst)
    as (error_services & done_services & _ & Hdones & ->).
  rewrite decide_True; [done |].
  apply (elem_of_services_ending _ _ _ service Hdones).
  exists ln. split; [| done].
  apply In_filter_iff. split; [done |]. by rewrite Hstart, Hdots.
Qed.

Lemma done_service_entry_witness :
  ∃ st, service_state_allign pause_twice_lines "Pausing" = Ok st
        ∧ st !! "web" = Some "done".
Proof.
  eexists. split; [reflexivity |].
  apply (done_service_entry pause_twice_lines "Pausing" "Pausing web ... done");
    try (vm_compute; reflexivity).
  apply list_elem_of_In. vm_compute. auto.
Defined.

End States.

(** * More about the dependency resolver *)

Section Dependencies.

Implicit Types (info all_services : pyval) (services : list string)
  (acc deps : gset atom).

(** What a pass that succeeds has collected: what it started from and the
    dependencies of each service it walked, nothing else. *)
Lemma for_each_resolve_members all_services services acc deps :
  for_each (resolve_service all_services) services acc = Ok deps →
  ∀ a, a ∈ deps ↔
       a ∈ acc ∨ ∃ s added, s ∈ services
                            ∧ resolve_service all_services ∅ s = Ok added
                            ∧ a ∈ added.
Proof.
  revert acc. induction services as [|s services IH]; intros acc; simpl.
  - intros [= <-] a. split; [by left |].
    intros [? | (s & ? & ?%elem_of_nil & _)]; done.
  - rewrite resolve_service_acc.
    destruct (resolve_service all_services ∅ s) as [added | e] eqn:Hs; [| done].
    rewrite !bind_Ok. intros Hrest a. rewrite (IH _ Hrest a), elem_of_union.
    split.
    + intros [[? | ?] | (s' & added' & ? & ? & ?)].
      * by left.
      * right. exists s, added. split; [by left | done].
      * right. exists s', added'. split; [by right | done].
    + intros [? | (s' & added' & [-> | ?]%elem_of_cons & Hs' & ?)].
      * left. by left.
      * left. right. congruence.
      * right. by exists s', added'.
Qed.

Lemma for_each_resolve_returns_iff all_services services acc :
  returns (for_each (resolve_service all_services) services acc) ↔
  ∀ s, s ∈ services → returns (resolve_service all_services ∅ s).
Proof.
  revert acc. induction services as [|s services IH]; intros acc; simpl.
  - split; [by intros _ s ?%elem_of_nil | intros _; by exists acc].
  - rewrite resolve_service_acc.
    destruct (resolve_service all_services ∅ s) as [added | e] eqn:Hs.
    + rewrite !bind_Ok, IH. split.
      * intros Hall s' [-> | ?]%elem_of_cons; [by exists added | by apply Hall].
      * intros Hall s' ?. apply Hall. by right.
    + rewrite bind_Raise. split; [by intros [? ?] |].
      intros Hall. destruct (Hall s) as [? ?]; [by left | congruence].
Qed.

(** X8: when the resolver returns, its result is exactly the union of what
    the requested services declare: a name is in it if and only if it is in
    the [depends_on] of some requested service. *)
Theorem resolve_dependencies_members info services deps :
  resolve_dependencies info services false = Ok deps →
  ∀ a, a ∈ deps ↔
       ∃ s added, s ∈ services
                  ∧ declared_dependencies info s = Ok added
                  ∧ a ∈ added.
Proof.
  unfold resolve_dependencies, declared_dependencies. simpl.
  destruct (PyVal.get info _ _) as [all_services | e]; [| done].
  rewrite bind_Ok. intros Hdeps a. setoid_rewrite bind_Ok.
  rewrite (for_each_resolve_members _ _ _ _ Hdeps a). set_solver.
Qed.

Lemma resolve_dependencies_members_witness :
  AStr "c" ∈ ({[ AStr "b"; AStr "c" ]} : gset atom) ↔
  ∃ s added, s ∈ ["a"; "b"]
             ∧ declared_dependencies doc_chain s = Ok added
             ∧ AStr "c" ∈ added.
Proof.
  apply (resolve_dependencies_members doc_chain ["a"; "b"]).
  vm_compute. reflexivity.
Defined.

(** X9: on a document that is a mapping, the resolver returns exactly when
    the step of every requested service does; one service whose entry
    cannot be read makes the whole resolution raise. *)
Theorem resolve_dependencies_returns_iff (d : gmap atom pyval) services :
  returns (resolve_dependencies (PyDict d) services false) ↔
  ∀ s, s ∈ services → returns (declared_dependencies (PyDict d) s).
Proof.
  unfold resolve_dependencies, declared_dependencies. simpl.
  apply for_each_resolve_returns_iff.
Qed.

(** X10: the result depends only on which names are requested, not on
    their order or on repetitions: two lists with the same members resolve
    alike. *)
Theorem resolve_dependencies_same_names info services services' deps :
  resolve_dependencies info services false = Ok deps →
  (∀ s, s ∈ services' ↔ s ∈ services) →
  resolve_dependencies info services' false = Ok deps.
Proof.
  unfold resolve_dependencies. simpl.
  destruct (PyVal.get info _ _) as [all_services | e]; [| done].
  rewrite !bind_Ok. intros Hdeps Hsame.
  assert (Hreturns : returns (for_each (resolve_service all_services) services' ∅)).
  { apply for_each_resolve_returns_iff. intros s Hs%Hsame. revert s Hs.
    apply (for_each_resolve_returns_iff all_services services ∅). by exists deps. }
  destruct Hreturns as [deps' Hdeps']. rewrite Hdeps'. f_equal.
  apply set_eq. intros a.
  rewrite (for_each_resolve_members _ _ _ _ Hdeps a),
    (for_each_resolve_members _ _ _ _ Hdeps' a).
  by setoid_rewrite Hsame.
Qed.

Lemma resolve_dependencies_same_names_witness :
  resolve_dependencies doc_chain ["b"; "a"; "b"] false
  = Ok {[ AStr "b"; AStr "c" ]}.
Proof.
  apply (resolve_dependencies_same_names doc_chain ["a"; "b"]).
  - vm_compute. reflexivity.
  - intros s. rewrite !elem_of_cons. set_solver.
Defined.

(** X11: a requested service the document does not define is skipped
    silently: resolving a list gives what resolving its defined members
    gives, result or exception alike. *)
Theorem unknown_services_skipped (d sv : gmap atom pyval) services :
  d !! AStr "services" = Some (PyDict sv) →
  resolve_dependencies (PyDict d) services false
  = resolve_dependencies (PyDict d)
      (List.filter (fun s => bool_decide (is_Some (sv !! AStr s))) services) false.
Proof.
  intros Hd. unfold resolve_dependencies. simpl. rewrite Hd. simpl.
  generalize (∅ : gset atom).
  induction services as [|s services IH]; intros acc; simpl; [done |].
  case_bool_decide as Hs; simpl.
  - destruct (resolve_service (PyDict sv) acc s) as [acc' | e]; [| done].
    rewrite !bind_Ok. apply IH.
  - replace (resolve_service (PyDict sv) acc s) with (Ok (A:=gset atom) acc).
    + rewrite bind_Ok. apply IH.
    + unfold resolve_service. simpl.
      destruct (sv !! AStr s) as [entry |]; [destruct Hs; by eexists |].
      simpl. rewrite lookup_empty. simpl. f_equal.
      change (acc = acc ∪ ∅). by rewrite (right_id_L ∅ (∪)).
Qed.

Lemma unknown_services_skipped_witness :
  resolve_dependencies doc_chain ["ghost"; "a"; "phantom"] false
  = Ok {[ AStr "b" ]}.
Proof.
  unfold doc_chain.
  rewrite (unknown_services_skipped _ _ _ (lookup_singleton_eq _ _)).
  vm_compute. reflexivity.
Defined.

(** X12: a requested service whose [depends_on] is present but is not a
    sequence (the mapping form, a single name, or an empty value) makes its
    step raise [TypeError], and the resolution as a whole raises. *)
Theorem depends_on_not_a_list_raises (d sv entry : gmap atom pyval)
    (depends_on : pyval) services (s : string) :
  d !! AStr "services" = Some (PyDict sv) →
  sv !! AStr s = Some (PyDict entry) →
  entry !! AStr "depends_on" = Some depends_on →
  (∀ l, depends_on ≠ PyList l) →
  s ∈ services →
  declared_dependencies (PyDict d) s = Raise TypeError
  ∧ ¬ returns (resolve_dependencies (PyDict d) services false).
Proof.
  intros Hd Hs Hdep Hnot Hin.
  assert (Hstep : resolve_service (PyDict sv) ∅ s = Raise TypeError).
  { unfold resolve_service. simpl. rewrite Hs. simpl. rewrite Hdep. simpl.
    destruct depends_on as [a | l | m]; [done | by destruct (Hnot l) | done]. }
  unfold declared_dependencies, resolve_dependencies. simpl. rewrite Hd. simpl.
  split; [done |].
  rewrite for_each_resolve_returns_iff. intros Hall.
  destruct (Hall s Hin) as [? ?]. congruence.
Qed.

Lemma depends_on_not_a_list_raises_witness :
  declared_dependencies
    (PyDict {[ AStr "services" :=
       PyDict {[ AStr "web" :=
         PyDict {[ AStr "depends_on" :=
           PyDict {[ AStr "db" :=
             PyDict {[ AStr "condition" :=
               PyAtom (AStr "service_healthy") ]} ]} ]} ]} ]}) "web"
  = Raise TypeError.
Proof.
  refine (proj1 (depends_on_not_a_list_raises _ _ _ _ ["web"] "web"
                   (lookup_singleton_eq _ _) (lookup_singleton_eq _ _)
                   (lookup_singleton_eq _ _) _ _)).
  - discriminate.
  - by left.
Defined.

End Dependencies.

(** * When pausing changes nothing *)

Section Idempotence.

Implicit Types (lines stderr_lines stdout_lines : list string)
  (st : gmap string string).

Lemma state_loop_false (suffix : string) st :
  (∀ service state, st !! service = Some state → Py.endswith state suffix = true) →
  state_loop suffix st false = false.
Proof.
  intros Hall. apply not_true_iff_false. rewrite state_loop_true_iff.
  intros (service & state & Hentry & Hend).
  by rewrite (Hall _ _ Hentry) in Hend.
Qed.

(** With no completed line ending in "done", every state is the text of an
    "ERROR" line. *)
Lemma allign_error_states lines (prefix suffix : string) st :
  service_state_allign lines prefix = Ok st →
  (∀ ln, ln ∈ lines → Py.startswith ln prefix = true →
         Py.endswith ln "done" = false) →
  (∀ ln, ln ∈ lines → Py.startswith ln "ERROR" = true →
         Py.endswith ln suffix = true) →
  ∀ service state, st !! service = Some state → Py.endswith state suffix = true.
Proof.
  intros Hst Hno_done Herrors service state Hentry.
  destruct (service_state_allign_lookup _ _ _ service Hst)
    as (error_services & done_services & _ & Hdones & Hlookup).
  rewrite Hentry in Hlookup.
  destruct (decide (service ∈ done_services)) as [Hdone | _].
  - apply (elem_of_services_ending _ _ _ service Hdones) in Hdone
      as (ln & Hln & Hend & _).
    apply In_filter_iff in Hln as [Hln [Hstart _]%andb_true_iff].
    by rewrite (Hno_done ln Hln Hstart) in Hend.
  - destruct (decide (service ∈ error_services)); [| done].
    symmetry in Hlookup. rewrite last_lookup in Hlookup.
    apply list_elem_of_lookup_2, In_filter_iff in Hlookup as [Hin _].
    apply In_filter_iff in Hin as [Hin Herror]. by apply Herrors.
Qed.

(** X22: the case the two suffixes are there for.  If no "Pausing" line
    ends with "done" and every "ERROR" line ends with "is already paused",
    then [pause] is classified as unchanged, provided the alignment returns;
    likewise [unpause] with "Unpausing" and "is not paused". *)
Theorem pause_of_paused_unchanged stderr_lines stdout_lines :
  ((∀ ln, ln ∈ stderr_lines → Py.startswith ln "Pausing" = true →
          Py.endswith ln "done" = false) →
   (∀ ln, ln ∈ stderr_lines → Py.startswith ln "ERROR" = true →
          Py.endswith ln "is already paused" = true) →
   returns (service_state_allign stderr_lines "Pausing") →
   eval_change "pause" stderr_lines stdout_lines = Ok (false, false))
  ∧ ((∀ ln, ln ∈ stderr_lines → Py.startswith ln "Unpausing" = true →
            Py.endswith ln "done" = false) →
     (∀ ln, ln ∈ stderr_lines → Py.startswith ln "ERROR" = true →
            Py.endswith ln "is not paused" = true) →
     returns (service_state_allign stderr_lines "Unpausing") →
     eval_change "unpause" stderr_lines stdout_lines = Ok (false, false)).
Proof.
  split; intros Hno_done Herrors [st Hst].
  - rewrite eval_change_pause, Hst, bind_Ok. do 2 f_equal.
    apply state_loop_false. by eapply allign_error_states.
  - rewrite eval_change_unpause, Hst, bind_Ok. do 2 f_equal.
    apply state_loop_false. by eapply allign_error_states.
Qed.

Lemma pause_of_paused_unchanged_witness :
  eval_change "pause"
    ["Pausing web ... error"; "Pausing db ... ";
     "ERROR: for web  Container 1f is already paused"] []
  = Ok (false, false).
Proof.
  apply (proj1 (pause_of_paused_unchanged _ _)).
  - intros ln Hln Hstart. apply list_elem_of_In in Hln. simpl in Hln.
    destruct Hln as [<- | [<- | [<- | []]]]; vm_compute; vm_compute in Hstart;
      congruence.
  - intros ln Hln Hstart. apply list_elem_of_In in Hln. simpl in Hln.
    destruct Hln as [<- | [<- | [<- | []]]]; vm_compute; vm_compute in Hstart;
      congruence.
  - eexists. vm_compute. reflexivity.
Defined.

End Idempotence.

(** * Whole runs of the module *)

Section Runs.

Implicit Types (w : world) (p : params).

(** Only the empty string has no lines. *)
Lemma splitlines_nil_iff (s : string) : splitlines s = [] ↔ s = "".
Proof.
  destruct s as [|c s]; [done |]. split; [| done].
  cbn [splitlines].
  destruct (bool_decide (c = "010"%char)); [done |].
  destruct (bool_decide (c = "013"%char)).
  - destruct s as [|c' s]; [done |]. by destruct (bool_decide _).
  - by destruct (splitlines s).
Qed.

Local Arguments Py.join : simpl never.
Local Arguments report : simpl never.
Local Arguments splitlines : simpl never.
Local Arguments eval_change : simpl never.

(** How lines 170-182 end a run. *)
Lemma report_outcome (a : action) (rc : Z) (stdout stderr : string)
    (trace : list string) :
  report a rc stdout stderr trace =
  (trace,
   inl match eval_change (action_name a) (splitlines stderr) (splitlines stdout) with
       | Ok (changed, true) => fail_json "Build Failed." (Some (stdout, stderr))
       | Ok (changed, false) =>
           exit_json rc changed (length (splitlines stderr), changed, false)
             stdout stderr
       | Raise e => uncaught e
       end).
Proof.
  unfold report.
  by destruct (eval_change _ _ _) as [[changed [|]] | e].
Qed.

(** [main] in one piece: the checks in the order the source makes them, the
    command lines, and the outcome. *)
Lemma main_unfold w p :
  main w p =
  match find_compose_cmd w with
  | None => ([], fail_json "docker-compose binary not found" None)
  | Some COMPOSE_CMD =>
  if negb (path_exists w (location p)) || negb (path_isfile w (location p))
  then ([], fail_json
              "Location does not exists. Enter full path and compose filename." None)
  else if bool_decide (command p = down) && bool_decide (1 ≤ length (services p))
  then ([], fail_json
              "You cannot specify the command as down and a number of services" None)
  else
  match load_yaml w (location p) with
  | None => ([], fail_json "YAML cannot be decoded." None)
  | Some info =>
  if negb (chdir_dirname w (location p)) then ([], uncaught OSError)
  else
  match resolve_dependencies info (services p) (ignoredependencys p) with
  | Raise e => ([], uncaught e)
  | Ok depedency_services =>
  match join_services w depedency_services (services p) with
  | Raise e => ([], uncaught e)
  | Ok joined =>
      let command_str :=
        Py.join " " ([COMPOSE_CMD; verb (command p)]
                     ++ (if bool_decide (command p = down)
                         then (if removevolumes p then ["-v"] else [])
                         else [joined])) in
      let '(rc, stdout, stderr) := run_command w command_str in
      ((if bool_decide (command p = stop) || bool_decide (command p = down)
        then [Py.join " " [COMPOSE_CMD; "unpause"; joined]] else [])
       ++ [command_str],
       match eval_change (action_name (command p))
               (splitlines stderr) (splitlines stdout) with
       | Ok (changed, true) => fail_json "Build Failed." (Some (stdout, stderr))
       | Ok (changed, false) =>
           exit_json rc changed (length (splitlines stderr), changed, false)
             stdout stderr
       | Raise e => uncaught e
       end)
  end end end end.
Proof.
  unfold main, main_body.
  destruct (find_compose_cmd w) as [COMPOSE_CMD |]; [| done].
  rewrite bind_pure.
  destruct (negb (path_exists w (location p)) || negb (path_isfile w (location p)));
    [done |].
  rewrite bind_pure.
  destruct (bool_decide (command p = down) && bool_decide (1 ≤ length (services p)));
    [done |].
  rewrite bind_pure.
  destruct (load_yaml w (location p)) as [info |]; [| done].
  rewrite bind_pure.
  destruct (chdir_dirname w (location p)); [| done].
  rewrite bind_pure. cbn [negb].
  destruct (resolve_dependencies info (services p) (ignoredependencys p))
    as [depedency_services | e]; [| done].
  cbn [lift]. rewrite bind_pure.
  destruct (join_services w depedency_services (services p)) as [joined | e].
  - destruct (bool_decide (command p = down)), (bool_decide (command p = stop));
      cbn [negb orb andb lift];
      unfold mbind, prog_bind, pure, invoke; cbn [app];
      try destruct (removevolumes p); cbn [app];
      repeat match goal with
      | |- context [run_command ?w0 ?c] =>
          destruct (run_command w0 c) as [[rc stdout] stderr]
      end;
      rewrite report_outcome; reflexivity.
  - destruct (bool_decide (command p = down)), (bool_decide (command p = stop));
      reflexivity.
Qed.

(** Walk through the checks of [main_unfold], naming what each one found. *)
Ltac main_cases w p :=
  rewrite (main_unfold w p);
  destruct (find_compose_cmd w) as [COMPOSE_CMD |] eqn:Hcmd;
  [ destruct (path_exists w (location p)) eqn:Hexists;
    [ destruct (path_isfile w (location p)) eqn:Hisfile;
      [ destruct (bool_decide (command p = down)
                  && bool_decide (1 ≤ length (services p))) eqn:Hgate;
        [ | destruct (load_yaml w (location p)) as [info |] eqn:Hyaml;
            [ destruct (chdir_dirname w (location p)) eqn:Hchdir;
              [ destruct (resolve_dependencies info (services p)
                            (ignoredependencys p)) as [deps | e0] eqn:Hdeps;
                [ destruct (join_services w deps (services p))
                    as [joined | e0] eqn:Hjoined;
                  [ cbn zeta;
                    match goal with
                    | |- context [run_command ?w0 ?c] =>
                        destruct (run_command w0 c) as [[rc0 out0] err0] eqn:Hrun
                    end;
                    match goal with
                    | |- context [eval_change ?a ?errs ?outs] =>
                        destruct (eval_change a errs outs)
                          as [[changed0 [|]] | e0] eqn:Heval
                    end
                  | ]
                | ]
              | ]
            | ] ]
      | ]
    | ]
  | ];
  cbn [negb orb andb fst snd].

Lemma down_gate p :
  bool_decide (command p = down) && bool_decide (1 ≤ length (services p)) = true
  ↔ command p = down ∧ services p ≠ [].
Proof.
  rewrite andb_true_iff, !bool_decide_eq_true.
  destruct (services p); simpl; split; intros [? ?]; split; try done; lia.
Qed.

(** X13: a run that ends in [fail_json] without captured output ended on
    one of the four configuration checks and has not run any command. *)
Theorem configuration_errors_run_nothing w p (msg : string) :
  (main w p).2 = fail_json msg None →
  (main w p).1 = []
  ∧ msg ∈ ["docker-compose binary not found";
           "Location does not exists. Enter full path and compose filename.";
           "You cannot specify the command as down and a number of services";
           "YAML cannot be decoded."].
Proof.
  main_cases w p; intros [= <-] || intros [=]; (split; [done | set_solver]).
Qed.

Lemma configuration_errors_run_nothing_witness :
  (main world_bare (params_of up ["web"])).1 = []
  ∧ "docker-compose binary not found"
    ∈ ["docker-compose binary not found";
       "Location does not exists. Enter full path and compose filename.";
       "You cannot specify the command as down and a number of services";
       "YAML cannot be decoded."].
Proof.
  apply (configuration_errors_run_nothing world_bare (params_of up ["web"])).
  vm_compute. reflexivity.
Defined.

(** X14: the configuration checks are made in a fixed order, and each
    message tells which one stopped the run: the binary first, then the
    location, then [down] with services, then the YAML document. *)
Theorem configuration_error_order w p :
  ((main w p).2 = fail_json "docker-compose binary not found" None
   ↔ find_compose_cmd w = None)
  ∧ ((main w p).2
     = fail_json "Location does not exists. Enter full path and compose filename."
         None
     ↔ is_Some (find_compose_cmd w)
       ∧ (path_exists w (location p) = false ∨ path_isfile w (location p) = false))
  ∧ ((main w p).2
     = fail_json "You cannot specify the command as down and a number of services"
         None
     ↔ is_Some (find_compose_cmd w)
       ∧ path_exists w (location p) = true ∧ path_isfile w (location p) = true
       ∧ command p = down ∧ services p ≠ [])
  ∧ ((main w p).2 = fail_json "YAML cannot be decoded." None
     ↔ is_Some (find_compose_cmd w)
       ∧ path_exists w (location p) = true ∧ path_isfile w (location p) = true
       ∧ ¬ (command p = down ∧ services p ≠ [])
       ∧ load_yaml w (location p) = None).
Proof.
  pose proof (down_gate p) as Hdown.
  main_cases w p; rewrite ?Hgate in Hdown;
    repeat split; try discriminate; try done;
    try (intros (? & ? & ? & ? & ?)); try (intros (? & ? & ?)); try (intros (? & ?));
    try (intros [? ?]); try congruence; try by eexists.
  all: try (by apply Hdown).
  all: try (intros ?; by apply Hdown).
  all: naive_solver.
Qed.

Lemma for_each_resolve_raise (all_services : pyval) (services : list string)
    (acc : gset atom) (e : exn) :
  for_each (resolve_service all_services) services acc = Raise e →
  e = AttributeError ∨ e = TypeError.
Proof.
  revert acc. induction services as [|s services IH]; intros acc; simpl; [done |].
  destruct (resolve_service all_services acc s) as [acc' | e'] eqn:Hs.
  - rewrite bind_Ok. apply IH.
  - rewrite bind_Raise. intros [= ->]. revert Hs. unfold resolve_service.
    destruct (PyVal.get all_services _ _) as [cs | ?] eqn:H1;
      [| destruct all_services; simpl in H1; naive_solver].
    rewrite bind_Ok.
    destruct (PyVal.get cs _ _) as [dep | ?] eqn:H2;
      [| destruct cs; simpl in H2; naive_solver].
    rewrite bind_Ok.
    destruct (PyVal.as_list dep) as [l | ?] eqn:H3;
      [| destruct dep; simpl in H3; naive_solver].
    rewrite bind_Ok. unfold PyVal.set.
    destruct (mapM PyVal.hashable l) as [atoms | ?] eqn:H4; [done |].
    apply (comprehension_Raise PyVal.hashable) in H4 as (x & _ & Hx).
    destruct x; simpl in Hx; naive_solver.
Qed.

(** The resolver raises nothing but [AttributeError] and [TypeError]. *)
Lemma resolve_dependencies_raise (info : pyval) (services : list string)
    (ignore : bool) (e : exn) :
  resolve_dependencies info services ignore = Raise e →
  e = AttributeError ∨ e = TypeError.
Proof.
  unfold resolve_dependencies. destruct ignore; simpl; [done |].
  destruct (PyVal.get info _ _) as [all_services | ?] eqn:H1.
  - rewrite bind_Ok. apply for_each_resolve_raise.
  - destruct info; simpl in H1; naive_solver.
Qed.

Lemma as_str_Ok (l : list atom) (names : list string) :
  mapM PyVal.as_str l = Ok names → l = AStr <$> names.
Proof.
  intros HF%(comprehension_Ok PyVal.as_str).
  induction HF as [|a s l names Ha HF IH]; [done |].
  destruct a; simpl in Ha; try done. injection Ha as ->. by rewrite IH.
Qed.

(** What the command line gets when the join succeeds: the names of the
    dependencies and of the requested services, each once. *)
Lemma join_services_Ok w (deps : gset atom) (services : list string)
    (joined : string) :
  join_services w deps services = Ok joined →
  ∃ names,
    joined = Py.join " " names
    ∧ NoDup names
    ∧ ∀ s, s ∈ names ↔ AStr s ∈ deps ∨ s ∈ services.
Proof.
  unfold join_services.
  pose proof (set_order_elements w (effective_services deps services)) as Hperm.
  destruct (mapM _ _) as [names | e] eqn:Hnames; [| done].
  rewrite bind_Ok. intros [= <-]. exists names. split; [done |].
  apply as_str_Ok in Hnames. rewrite Hnames in Hperm. split.
  - apply (NoDup_fmap_1 AStr). rewrite Hperm. apply NoDup_elements.
  - intros s. rewrite <- (list_elem_of_fmap_inj AStr), Hperm, elem_of_elements.
    unfold effective_services.
    rewrite elem_of_union, elem_of_list_to_set, (list_elem_of_fmap_inj AStr).
    done.
Qed.

Lemma join_services_raise w (deps : gset atom) (services : list string) (e : exn) :
  join_services w deps services = Raise e → e = TypeError.
Proof.
  unfold join_services.
  destruct (mapM _ _) as [names | e'] eqn:Hnames; [done |].
  rewrite bind_Raise. intros [= ->].
  apply (comprehension_Raise PyVal.as_str) in Hnames as (a & _ & Ha).
  destruct a; simpl in Ha; congruence.
Qed.

Lemma action_name_inj (a b : action) : action_name a = action_name b → a = b.
Proof. destruct a, b; simpl; congruence. Qed.

(** X15: an exception leaves [main] either before anything has been run
    (the [OSError] of [chdir], the [AttributeError] and [TypeError] of the
    resolver and of the join) or after the one command of [pause] or
    [unpause] (the [IndexError] of the alignment). *)
Theorem uncaught_exceptions w p (e : exn) :
  (main w p).2 = uncaught e →
  (e = IndexError
   ∧ (command p = pause ∨ command p = unpause)
   ∧ length (main w p).1 = 1)
  ∨ (e ∈ [AttributeError; TypeError; OSError] ∧ (main w p).1 = []).
Proof.
  main_cases w p; intros [= <-] || intros [=].
  - pose proof (eval_change_failed (action_name (command p))
                  (splitlines err0) (splitlines out0)) as Hraise.
    rewrite Heval in Hraise. destruct Hraise as [-> Haction]. left.
    split; [done |].
    assert (Hc : command p = pause ∨ command p = unpause).
    { destruct Haction as [Ha | Ha]; [left | right];
        by apply action_name_inj. }
    split; [done |].
    destruct Hc as [-> | ->]; reflexivity.
  - right. apply join_services_raise in Hjoined as ->. split; [set_solver | done].
  - right. apply resolve_dependencies_raise in Hdeps as [-> | ->];
      (split; [set_solver | done]).
  - right. split; [set_solver | done].
Qed.

Lemma uncaught_exceptions_witness :
  (IndexError = IndexError
   ∧ (command (params_of pause ["a"]) = pause
      ∨ command (params_of pause ["a"]) = unpause)
   ∧ length (main (world_with doc_chain (1%Z, "", "Pausingdone"))
               (params_of pause ["a"])).1 = 1)
  ∨ (IndexError ∈ [AttributeError; TypeError; OSError]
     ∧ (main (world_with doc_chain (1%Z, "", "Pausingdone"))
          (params_of pause ["a"])).1 = []).
Proof.
  apply (uncaught_exceptions (world_with doc_chain (1%Z, "", "Pausingdone"))
           (params_of pause ["a"])).
  vm_compute. reflexivity.
Defined.

(** X16: whenever [main] has run anything, what it ran is fixed by the
    binary, the action and one list of names, which holds the declared
    dependencies of the requested services and the requested services
    themselves, each once: first an [unpause] of those names under [stop] and
    [down], then the action, as "up -d" under [up], on those names, except that [down]
    gets no names and gets "-v" when volumes are to be removed. *)
Theorem command_lines w p :
  (main w p).1 ≠ [] →
  ∃ COMPOSE_CMD info deps names,
    find_compose_cmd w = Some COMPOSE_CMD
    ∧ load_yaml w (location p) = Some info
    ∧ resolve_dependencies info (services p) (ignoredependencys p) = Ok deps
    ∧ NoDup names
    ∧ (∀ s, s ∈ names ↔ AStr s ∈ deps ∨ s ∈ services p)
    ∧ (main w p).1 =
      (if bool_decide (command p = stop) || bool_decide (command p = down)
       then [Py.join " " [COMPOSE_CMD; "unpause"; Py.join " " names]]
       else [])
      ++ [Py.join " "
            ([COMPOSE_CMD; if bool_decide (command p = up) then "up -d"
                           else action_name (command p)]
             ++ (if bool_decide (command p = down)
                 then (if removevolumes p then ["-v"] else [])
                 else [Py.join " " names]))].
Proof.
  main_cases w p; try done; intros _;
    destruct (join_services_Ok _ _ _ _ Hjoined) as (names & -> & Hnodup & Hmem);
    by exists COMPOSE_CMD, info, deps, names.
Qed.

Lemma command_lines_witness :
  ∃ names,
    NoDup names
    ∧ (∀ s, s ∈ names ↔ AStr s ∈ ({[ AStr "b" ]} : gset atom) ∨ s ∈ ["a"])
    ∧ (main (world_with doc_chain (0%Z, "", "")) (params_of stop ["a"])).1 =
      ["/usr/bin/docker-compose unpause " +:+ Py.join " " names;
       "/usr/bin/docker-compose stop " +:+ Py.join " " names].
Proof.
  destruct (command_lines (world_with doc_chain (0%Z, "", ""))
              (params_of stop ["a"]))
    as (cmd & info & deps & names & Hcmd & Hinfo & Hdeps & Hnodup & Hmem & Htrace).
  - vm_compute. discriminate.
  - injection Hcmd as <-. injection Hinfo as <-.
    vm_compute in Hdeps. injection Hdeps as <-.
    exists names. split; [exact Hnodup |]. split; [exact Hmem |].
    rewrite Htrace. reflexivity.
Defined.

(** X17: the exit code of the command is never looked at.  Once a command
    has been run under an action other than [build], [pause] and [unpause],
    the run ends in [exit_json] with the exit code, stdout and stderr of the
    last command, whatever the exit code is. *)
Theorem exit_code_never_inspected w p (command_str : string) :
  last (main w p).1 = Some command_str →
  command p ∉ [build; pause; unpause] →
  ∃ rc stdout stderr changed,
    run_command w command_str = (rc, stdout, stderr)
    ∧ (main w p).2
      = exit_json rc changed (length (splitlines stderr), changed, false)
          stdout stderr.
Proof.
  main_cases w p; try done; rewrite last_snoc; intros [= <-] Hnot;
    pose proof (eval_change_failed (action_name (command p))
                  (splitlines err0) (splitlines out0)) as Hfailed;
    rewrite Heval in Hfailed.
  - symmetry in Hfailed. apply andb_true_iff in Hfailed as [Hbuild%bool_decide_eq_true _].
    apply (action_name_inj _ build) in Hbuild. set_solver.
  - by exists rc0, out0, err0, changed0.
  - destruct Hfailed as [_ [Ha | Ha]];
      [apply (action_name_inj _ pause) in Ha
      | apply (action_name_inj _ unpause) in Ha]; set_solver.
Qed.

Lemma exit_code_never_inspected_witness :
  ∃ rc stdout stderr changed,
    (2%Z, "", "ERROR: No such service: ab") = (rc, stdout, stderr)
    ∧ (main (world_with doc_chain (2%Z, "", "ERROR: No such service: ab"))
         (params_of up ["ab"])).2
      = exit_json rc changed (length (splitlines stderr), changed, false)
          stdout stderr.
Proof.
  apply (exit_code_never_inspected
           (world_with doc_chain (2%Z, "", "ERROR: No such service: ab"))
           (params_of up ["ab"]) "/usr/bin/docker-compose up -d ab").
  - vm_compute. reflexivity.
  - vm_compute. set_solver.
Defined.

(** X18: a run of [stop] or of [create] that ends in [exit_json] reports a
    change exactly when the command printed something on stderr. *)
Theorem stop_changed_iff_stderr w p (rc : Z) (changed : bool)
    (ms : nat * bool * bool) (stdout stderr : string) :
  command p = stop ∨ command p = create →
  (main w p).2 = exit_json rc changed ms stdout stderr →
  (changed = true ↔ stderr ≠ "").
Proof.
  intros Hcommand.
  main_cases w p; intros [= <- <- <- <- <-] || intros [=].
  rewrite eval_change_stop_create in Heval
    by (destruct Hcommand as [-> | ->]; auto).
  injection Heval as <-.
  by rewrite bool_decide_eq_true, splitlines_nil_iff.
Qed.

Lemma stop_changed_iff_stderr_witness :
  true = true ↔ "Stopping a ... done" ≠ "".
Proof.
  apply (stop_changed_iff_stderr (world_with doc_chain (0%Z, "", "Stopping a ... done"))
           (params_of stop ["a"]) 0%Z true (1, true, false) "" "Stopping a ... done").
  - by left.
  - vm_compute. reflexivity.
Defined.

Lemma eval_change_down_start (a : action) (stderr_lines stdout_lines : list string) :
  a = down ∨ a = start →
  eval_change (action_name a) stderr_lines stdout_lines = Ok (false, false).
Proof.
  intros [-> | ->]; unfold eval_change; simpl; decide_actions; reflexivity.
Qed.

(** X19: [down] and [start] never report a change: once their command has
    been run the run ends in [exit_json] with [changed] false, whatever the
    command printed and however it ended. *)
Theorem down_and_start_report_no_change w p :
  command p = down ∨ command p = start →
  (main w p).1 ≠ [] →
  ∃ rc stdout stderr,
    (main w p).2
    = exit_json rc false (length (splitlines stderr), false, false) stdout stderr.
Proof.
  intros Hcommand.
  main_cases w p; try done; intros _;
    rewrite (eval_change_down_start _ _ _ Hcommand) in Heval; try done.
  injection Heval as <-. by exists rc0, out0, err0.
Qed.

Lemma down_and_start_report_no_change_witness :
  ∃ rc stdout stderr,
    (main (world_with doc_chain (0%Z, "", "Removing app_a_1 ... done"))
       (params_of down [])).2
    = exit_json rc false (length (splitlines stderr), false, false) stdout stderr.
Proof.
  apply down_and_start_report_no_change.
  - by left.
  - vm_compute. discriminate.
Defined.

(** X20: when dependencies are not ignored, a compose file that does not
    load as a mapping (an empty file loads as [None]) ends the run with an
    uncaught [AttributeError] before any command, even when no service is
    requested. *)
Theorem non_mapping_document_raises w p (info : pyval) :
  is_Some (find_compose_cmd w) →
  path_exists w (location p) = true →
  path_isfile w (location p) = true →
  ¬ (command p = down ∧ services p ≠ []) →
  load_yaml w (location p) = Some info →
  chdir_dirname w (location p) = true →
  ignoredependencys p = false →
  (∀ d, info ≠ PyDict d) →
  main w p = ([], uncaught AttributeError).
Proof.
  intros [cmd Hcmd] Hexists Hisfile Hdown Hyaml Hchdir Hignore Hinfo.
  rewrite main_unfold, Hcmd, Hexists, Hisfile, Hyaml, Hchdir, Hignore.
  destruct (bool_decide (command p = down)
            && bool_decide (1 ≤ length (services p))) eqn:Hgate;
    [by apply down_gate in Hgate |].
  destruct info as [a | l | d]; [done | done | by destruct (Hinfo d)].
Qed.

Lemma non_mapping_document_raises_witness :
  main (world_with (PyAtom ANone) (0%Z, "", "")) (params_of up [])
  = ([], uncaught AttributeError).
Proof.
  apply (non_mapping_document_raises _ _ (PyAtom ANone));
    [by eexists | reflexivity | reflexivity | by intros [[=] _]
    | reflexivity | reflexivity | reflexivity | discriminate].
Defined.

(** X21: a dependency that is not a string (a number in [depends_on], say)
    cannot be joined into the command line: the run ends with an uncaught
    [TypeError] before any command. *)
Theorem non_string_dependency_raises w p (info : pyval) (deps : gset atom)
    (a : atom) :
  is_Some (find_compose_cmd w) →
  path_exists w (location p) = true →
  path_isfile w (location p) = true →
  ¬ (command p = down ∧ services p ≠ []) →
  load_yaml w (location p) = Some info →
  chdir_dirname w (location p) = true →
  resolve_dependencies info (services p) (ignoredependencys p) = Ok deps →
  a ∈ deps →
  (∀ s, a ≠ AStr s) →
  main w p = ([], uncaught TypeError).
Proof.
  intros [cmd Hcmd] Hexists Hisfile Hdown Hyaml Hchdir Hdeps Ha Hnot.
  rewrite main_unfold, Hcmd, Hexists, Hisfile, Hyaml, Hchdir, Hdeps.
  destruct (bool_decide (command p = down)
            && bool_decide (1 ≤ length (services p))) eqn:Hgate;
    [by apply down_gate in Hgate |].
  cbn [negb orb].
  destruct (join_services w deps (services p)) as [joined | e] eqn:Hjoined.
  - destruct (join_services_Ok _ _ _ _ Hjoined) as (names & _ & _ & Hmem).
    exfalso. revert Hjoined. unfold join_services.
    destruct (mapM _ _) as [names' | e] eqn:Hnames; [| done].
    apply as_str_Ok in Hnames. intros _.
    assert (Hin : a ∈ set_order w (effective_services deps (services p))).
    { rewrite (set_order_elements w), elem_of_elements.
      unfold effective_services. set_solver. }
    rewrite Hnames in Hin. apply list_elem_of_fmap in Hin as (s & -> & _).
    by destruct (Hnot s).
  - by apply join_services_raise in Hjoined as ->.
Qed.

Lemma non_string_dependency_raises_witness :
  main (world_with doc_numeric (0%Z, "", "")) (params_of up ["web"])
  = ([], uncaught TypeError).
Proof.
  apply (non_string_dependency_raises _ _ doc_numeric {[ AInt 1 ]} (AInt 1));
    [by eexists | reflexivity | reflexivity | by intros [[=] _]
    | reflexivity | reflexivity | vm_compute; reflexivity
    | by apply elem_of_singleton | discriminate].
Defined.

Lemma join_starts (x y : string) (l : list string) :
  Py.startswith (Py.join " " (x :: y :: l)) (x +:+ " ") = true.
Proof.
  apply startswith_spec. exists (Py.join " " (y :: l)).
  change (Py.join " " (x :: y :: l)) with (x +:+ " " +:+ Py.join " " (y :: l)).
  by rewrite app_assoc_str.
Qed.

(** X23: every command [main] runs starts with the path of the compose
    binary and a space.  The path is the one [get_bin_path] found; only when
    it found none is it the fixed path under /usr/local/bin, and then that
    path exists. *)
Theorem compose_binary_used w p (c : string) :
  c ∈ (main w p).1 →
  ∃ COMPOSE_CMD,
    Py.startswith c (COMPOSE_CMD +:+ " ") = true
    ∧ COMPOSE_CMD ≠ ""
    ∧ match get_bin_path w with
      | Some (String a rest) => COMPOSE_CMD = String a rest
      | Some EmptyString | None =>
          COMPOSE_CMD = "/usr/local/bin/docker-compose"
          ∧ path_exists w "/usr/local/bin/docker-compose" = true
      end.
Proof.
  main_cases w p; try by intros ?%elem_of_nil.
  all: intros Hc; exists COMPOSE_CMD.
  all: assert (Hfound : COMPOSE_CMD ≠ ""
         ∧ match get_bin_path w with
           | Some (String a rest) => COMPOSE_CMD = String a rest
           | Some EmptyString | None =>
               COMPOSE_CMD = "/usr/local/bin/docker-compose"
               ∧ path_exists w "/usr/local/bin/docker-compose" = true
           end).
  all: try (revert Hcmd; unfold find_compose_cmd, alternative_cmd;
            destruct (get_bin_path w) as [[|a rest] |];
            try destruct (path_exists w "/usr/local/bin/docker-compose");
            intros [= <-]; done).
  all: destruct Hfound as [Hne Hpath]; split; [| done].
  all: apply elem_of_app in Hc as [Hc | ->%list_elem_of_singleton];
         [| apply join_starts].
  all: destruct (bool_decide (command p = stop) || bool_decide (command p = down));
         [apply list_elem_of_singleton in Hc as ->; apply join_starts
         | by apply elem_of_nil in Hc].
Qed.

Lemma compose_binary_used_witness :
  ∃ COMPOSE_CMD,
    Py.startswith "/usr/bin/docker-compose pull a b" (COMPOSE_CMD +:+ " ") = true
    ∧ COMPOSE_CMD ≠ ""
    ∧ COMPOSE_CMD = "/usr/bin/docker-compose".
Proof.
  apply (compose_binary_used (world_with doc_chain (0%Z, "", ""))
           (params_of pull ["a"])).
  apply list_elem_of_In. vm_compute. auto.
Defined.

(** X24: [removevolumes] matters under [down] only: under any other
    command a run goes the same way whatever the flag is. *)
Theorem removevolumes_only_for_down w p (flag : bool) :
  command p ≠ down →
  main w {| location := location p; services := services p;
            command := command p; ignoredependencys := ignoredependencys p;
            removevolumes := flag |}
  = main w p.
Proof.
  intros Hdown. rewrite !main_unfold. cbn [location services command
    ignoredependencys removevolumes].
  by rewrite (bool_decide_eq_false_2 (command p = down)).
Qed.

Lemma removevolumes_only_for_down_witness :
  main (world_with doc_chain (0%Z, "", ""))
    {| location := "/srv/app/docker-compose.yml"; services := ["a"];
       command := stop; ignoredependencys := false; removevolumes := false |}
  = main (world_with doc_chain (0%Z, "", "")) (params_of stop ["a"]).
Proof.
  apply (removevolumes_only_for_down _ (params_of stop ["a"]) false).
  discriminate.
Defined.

(** X25: a run ends in [fail_json] with captured output only as a failed
    build: the action is [build], the message is "Build Failed.", the output
    is that of the one command run, and some line of its stderr contains
    "failed to build". *)
Theorem build_failure_reported w p (msg stdout stderr : string) :
  (main w p).2 = fail_json msg (Some (stdout, stderr)) →
  command p = build
  ∧ msg = "Build Failed."
  ∧ (∃ command_str rc,
       (main w p).1 = [command_str]
       ∧ run_command w command_str = (rc, stdout, stderr))
  ∧ ∃ ln, ln ∈ splitlines stderr ∧ Py.contains "failed to build" ln = true.
Proof.
  main_cases w p; intros [= <- <- <-] || intros [=].
  pose proof (eval_change_failed (action_name (command p))
                (splitlines err0) (splitlines out0)) as Hfailed.
  rewrite Heval in Hfailed. symmetry in Hfailed.
  apply andb_true_iff in Hfailed as [Hbuild%bool_decide_eq_true Hline].
  apply (action_name_inj _ build) in Hbuild.
  split; [done |]. split; [done |]. split.
  - rewrite Hbuild in *. eexists _, rc0. split; [reflexivity | exact Hrun].
  - by apply any_sets_true_iff.
Qed.

Lemma build_failure_reported_witness :
  command (params_of build ["a"]) = build
  ∧ "Build Failed." = "Build Failed."
  ∧ (∃ command_str rc,
       (main (world_with doc_chain
                (1%Z, "Step 1/3", "ERROR: Service a failed to build: no such file"))
          (params_of build ["a"])).1 = [command_str]
       ∧ (1%Z, "Step 1/3", "ERROR: Service a failed to build: no such file")
         = (rc, "Step 1/3", "ERROR: Service a failed to build: no such file"))
  ∧ ∃ ln, ln ∈ splitlines "ERROR: Service a failed to build: no such file"
          ∧ Py.contains "failed to build" ln = true.
Proof.
  apply (build_failure_reported
           (world_with doc_chain
              (1%Z, "Step 1/3", "ERROR: Service a failed to build: no such file"))
           (params_of build ["a"])).
  vm_compute. reflexivity.
Defined.

End Runs.
